(** * Supply-chain dashboard: the alerting, summary and export core

    A shallow embedding of [streamlit.py]: the compiled-in snapshot
    ([parse_supply_chain_data]), the threshold classifier
    ([analyze_critical_issues]), the executive summary
    ([create_summary_report]) and the spreadsheet export
    ([export_report_to_excel]).

    Python values are modelled as the interpreter has them:
    - [int] is unbounded, hence [Z];
    - a pandas integer column whose values fit 64 bits is [int64]: its
      [sum] wraps modulo [2^64];
    - [float] and [numpy.float64] are IEEE-754 binary64, hence the
      standard library's [spec_float] at precision 53 and [emax] 1024;
    - [str] is a byte string holding the UTF-8 encoding of the text. *)

From Stdlib Require Import ZArith List String Ascii Bool Lia DecimalString.
From Stdlib Require Import Floats.SpecFloat.
Import ListNotations.

Open Scope string_scope.
Open Scope Z_scope.

(* ------------------------------------------------------------------ *)
(** ** Exceptions *)

Inductive exn : Type :=
| ZeroDivisionError
| OverflowError.

(** A computation that may raise: [inl e] is the raised exception. *)
Definition result (A : Type) : Type := (exn + A)%type.

(* ------------------------------------------------------------------ *)
(** ** Numbers *)

Module Num.

(** Python [float], [numpy.float64] *)
Definition float : Type := spec_float.

Definition fmul : float -> float -> float := SFmul 53 1024.
Definition fdiv : float -> float -> float := SFdiv 53 1024.
Definition fadd : float -> float -> float := SFadd 53 1024.
Definition fltb : float -> float -> bool := SFltb.

(** Conversion of an integer to binary64, round to nearest even. *)
Definition float_of_Z (z : Z) : float := binary_normalize 53 1024 z 0 false.

(** [int64] wrap-around. *)
Definition wrap64 (z : Z) : Z := (z + 2 ^ 63) mod 2 ^ 64 - 2 ^ 63.

(** [Series.sum()] of an [int64] column. *)
Definition series_sum (l : list Z) : Z :=
  fold_left (fun acc v => wrap64 (acc + v)) l 0.

(** [abs] of a [numpy.int64]. *)
Definition np_abs (z : Z) : Z := wrap64 (Z.abs z).

(** The integer nearest to [N / D] ([D > 0]), ties to the even one. *)
Definition round_half_even (N D : Z) : Z :=
  let q := N / D in
  let r := N mod D in
  match 2 * r ?= D with
  | Lt => q
  | Eq => if Z.even q then q else q + 1
  | Gt => q + 1
  end.

(** [floor (log2 (n / d))] for positive [n] and [d]. *)
Definition ilog2_ratio (n d : Z) : Z :=
  if d <=? n then Z.log2 (n / d) else - Z.log2_up (- ((- d) / n)).

(** The binary64 nearest to [n / d] for positive [n] and [d], with sign
    [s]; [None] when the rounded value is [2^1024] or more. The
    exponent is the canonical one ([-1074] in the subnormal range), the
    mantissa the quotient rounded half to even. *)
Definition round_ratio (s : bool) (n d : Z) : option float :=
  let e := ilog2_ratio n d in
  let ex := Z.max (e - 52) (-1074) in
  let m := round_half_even (n * 2 ^ Z.max 0 (- ex)) (d * 2 ^ Z.max 0 ex) in
  let '(m, ex) := if m =? 2 ^ 53 then (2 ^ 52, ex + 1) else (m, ex) in
  match m with
  | Zpos p => if ex <=? 971 then Some (S754_finite s p ex) else None
  | _ => Some (S754_zero s)
  end.

(** [a / b] on Python [int]s (CPython's [long_true_divide]): the
    correctly rounded quotient; raises on a zero divisor and when the
    quotient is too large for a float. *)
Definition long_true_divide (a b : Z) : result float :=
  if b =? 0 then inl ZeroDivisionError
  else if a =? 0 then inr (S754_zero (b <? 0))
  else match round_ratio (xorb (a <? 0) (b <? 0)) (Z.abs a) (Z.abs b) with
       | Some f => inr f
       | None => inl OverflowError
       end.

(** [a / b] on two [numpy.int64] scalars: both are converted to
    [float64] and divided; a zero divisor gives [inf] or [nan] (and a
    warning), not an exception. *)
Definition np_true_divide (a b : Z) : float :=
  fdiv (float_of_Z a) (float_of_Z b).

(** A decimal literal [n / 10^k] of the source text, e.g. [0.3]. *)
Definition decimal_literal (n : Z) (k : Z) : float :=
  match round_ratio false n (10 ^ k) with
  | Some f => f
  | None => S754_infinity false
  end.

(** [Series.mean()] of an [int64] column (pandas' [nanmean]): the
    float64 sum over the count, [nan] for an empty column. The sum is
    accumulated left to right, which is NumPy's order for short
    columns and the exact sum in any order while it stays below
    [2^53]. *)
Definition series_mean (l : list Z) : float :=
  match l with
  | [] => S754_nan
  | _ => fdiv (fold_left (fun acc v => fadd acc (float_of_Z v)) l (S754_zero false))
              (float_of_Z (Z.of_nat (List.length l)))
  end.

End Num.

(* ------------------------------------------------------------------ *)
(** ** Strings and formatting *)

Module Fmt.
Import Num.

(** [str(z)] *)
Definition str_of_Z (z : Z) : string := NilZero.string_of_int (Z.to_int z).

(** Thousands separators in a string of digits. *)
Fixpoint group3 (s : string) : string :=
  match s with
  | EmptyString => EmptyString
  | String c rest =>
      String c (if Nat.ltb 0 (String.length rest)
                   && Nat.eqb (Nat.modulo (String.length rest) 3) 0
                then "," ++ group3 rest else group3 rest)
  end.

(** [f"{z:,}"] *)
Definition format_comma (z : Z) : string :=
  (if z <? 0 then "-" else "") ++ group3 (str_of_Z (Z.abs z)).

Definition sign_str (s : bool) : string := if s then "-" else "".

(** [f"{x:.1f}"]: one digit after the point, correctly rounded from the
    exact binary value (ties to even). *)
Definition format_f1 (x : float) : string :=
  match x with
  | S754_nan => "nan"
  | S754_infinity s => sign_str s ++ "inf"
  | S754_zero s => sign_str s ++ "0.0"
  | S754_finite s m e =>
      let t := round_half_even (10 * Zpos m * 2 ^ Z.max 0 e) (2 ^ Z.max 0 (- e)) in
      sign_str s ++ str_of_Z (t / 10) ++ "." ++ str_of_Z (t mod 10)
  end.

(** [f"{x:.1%}"]: the value times 100 (in binary64), then [.1f] and a
    percent sign. *)
Definition format_pct1 (x : float) : string :=
  format_f1 (fmul x (float_of_Z 100)) ++ "%".

(** [needle in s] *)
Fixpoint str_contains (needle s : string) : bool :=
  String.prefix needle s
  || match s with
     | EmptyString => false
     | String _ rest => str_contains needle rest
     end.

(** [len(x)] *)
Definition len {A : Type} (l : list A) : Z := Z.of_nat (List.length l).

End Fmt.

Import Num Fmt.

(* ------------------------------------------------------------------ *)
(** ** Data model: the six domains of a snapshot *)

(** A row of the [production] DataFrame. *)
Record ProductionRecord : Type := {
  Date : string;
  Planned_Qty : Z;
  Actual_Qty : Z;
  Variance : Z;
  Reason : string
}.

(** A row of the [capacity] DataFrame. *)
Record CapacityRecord : Type := {
  Department : string;
  Capacity : Z;
  Planned_Load : Z;
  Actual_Prod : Z;
  Utilization : Z;
  MTD : Z
}.

(** A row of the [mrp] DataFrame; all four columns hold strings. *)
Record MrpOrder : Type := {
  Order : string;
  Ordered : string;
  Available : string;
  Status : string
}.

(** One bucket of the [procurement] dict. *)
Record PoBucket : Type := {
  Count : Z;
  Amount : float
}.

Record Procurement : Type := {
  PO_Issued : PoBucket;
  PO_Received : PoBucket;
  PO_Pending : PoBucket
}.

Record PIStatus : Type := {
  PI_Total : Z;
  PI_Received : Z;
  PI_Approved : Z;
  PI_Pending : Z
}.

Record PaymentStatus : Type := {
  Payment_Done : Z;
  Payment_Pending : Z;
  Payment_Total : Z
}.

Record ShipmentStatus : Type := {
  May : Z;
  June : Z;
  July : Z
}.

Record ImportStatus : Type := {
  PI : PIStatus;
  Payment : PaymentStatus;
  Shipment : ShipmentStatus
}.

Record FGStock : Type := {
  Elten : Z;
  Bata : Z;
  S_Step : Z;
  Total : Z
}.

Record GRNStatus : Type := {
  GRN_Total : Z;
  GRN_Done : Z;
  GRN_Pending : Z
}.

Record Warehouse : Type := {
  FG_Stock : FGStock;
  GRN : GRNStatus
}.

(** The dict returned by [parse_supply_chain_data]. *)
Record Snapshot : Type := {
  production : list ProductionRecord;
  capacity : list CapacityRecord;
  mrp : list MrpOrder;
  procurement : Procurement;
  imports : ImportStatus;
  warehouse : Warehouse
}.

(** [parse_supply_chain_data()]: the compiled-in snapshot. *)
Definition parse_supply_chain_data : Snapshot := {|
  production := [
    {| Date := "10-Jun-2025"; Planned_Qty := 800; Actual_Qty := 936;
       Variance := 136; Reason := "2 Lines loading" |};
    {| Date := "11-Jun-2025"; Planned_Qty := 800; Actual_Qty := 1180;
       Variance := 380; Reason := "2 Lines loading/material issue" |};
    {| Date := "12-Jun-2025"; Planned_Qty := 800; Actual_Qty := 650;
       Variance := -150; Reason := "Loading end/feeding issue" |};
    {| Date := "13-Jun-2025"; Planned_Qty := 2000; Actual_Qty := 0;
       Variance := -2000; Reason := "FEEDING ISSUE FROM CUTTING" |};
    {| Date := "14-Jun-2025"; Planned_Qty := 2000; Actual_Qty := 0;
       Variance := -2000; Reason := "FEEDING ISSUE FROM CUTTING" |};
    {| Date := "16-Jun-2025"; Planned_Qty := 2000; Actual_Qty := 393;
       Variance := -1607; Reason := "FEEDING ISSUE FROM CUTTING" |} ];
  capacity := [
    {| Department := "Cutting"; Capacity := 3000; Planned_Load := 1823;
       Actual_Prod := 1800; Utilization := 60; MTD := 8763 |};
    {| Department := "Stitching"; Capacity := 2788; Planned_Load := 0;
       Actual_Prod := 393; Utilization := 14; MTD := 7974 |};
    {| Department := "Lasting"; Capacity := 3462; Planned_Load := 0;
       Actual_Prod := 0; Utilization := 0; MTD := 12100 |} ];
  mrp := [
    {| Order := "673"; Ordered := "Yes"; Available := "Yes"; Status := "Complete" |};
    {| Order := "675"; Ordered := "Yes"; Available := "Yes"; Status := "Complete" |};
    {| Order := "677"; Ordered := "Yes"; Available := "Yes"; Status := "Complete" |};
    {| Order := "679"; Ordered := "No"; Available := "No"; Status := "Critical" |};
    {| Order := "680"; Ordered := "Yes"; Available := "No"; Status := "Pending" |};
    {| Order := "681"; Ordered := "No"; Available := "No"; Status := "Critical" |} ];
  procurement := {|
    PO_Issued := {| Count := 92; Amount := decimal_literal 11477 2 |};
    PO_Received := {| Count := 56; Amount := decimal_literal 9684 2 |};
    PO_Pending := {| Count := 36; Amount := decimal_literal 1793 2 |} |};
  imports := {|
    PI := {| PI_Total := 12; PI_Received := 12; PI_Approved := 12; PI_Pending := 0 |};
    Payment := {| Payment_Done := 3; Payment_Pending := 4; Payment_Total := 7 |};
    Shipment := {| May := 1; June := 8; July := 1 |} |};
  warehouse := {|
    FG_Stock := {| Elten := 1090; Bata := 0; S_Step := 1500; Total := 2590 |};
    GRN := {| GRN_Total := 4; GRN_Done := 4; GRN_Pending := 0 |} |}
|}.

(* ------------------------------------------------------------------ *)
(** ** Computations over the snapshot

    The functions of the source receive the snapshot dict [data] by
    reference and may raise. A computation therefore takes the snapshot
    and returns its outcome together with the snapshot as it leaves it. *)

Definition M (A : Type) : Type := Snapshot -> result A * Snapshot.

Definition ret {A : Type} (a : A) : M A := fun d => (inr a, d).

Definition bind {A B : Type} (c : M A) (k : A -> M B) : M B :=
  fun d => match c d with
           | (inr a, d') => k a d'
           | (inl e, d') => (inl e, d')
           end.

(** [data[key]]: a read of one domain. *)
Definition read {A : Type} (key : Snapshot -> A) : M A := fun d => (inr (key d), d).

(** An operation that returns or raises without touching [data]. *)
Definition lift {A : Type} (r : result A) : M A := fun d => (r, d).

Declare Scope py_scope.
Delimit Scope py_scope with py.
Notation "x <- c ;; k" := (bind c (fun x => k))
  (at level 100, c at next level, right associativity) : py_scope.
Open Scope py_scope.

(* ------------------------------------------------------------------ *)
(** ** The classifier: [analyze_critical_issues] *)

(** The literal [0.3]. *)
Definition lit_0_3 : float := decimal_literal 3 1.

Definition shortfall_msg (total_variance : Z) : string :=
  "🚨 CRITICAL: Production shortfall of "
    ++ format_comma (np_abs total_variance) ++ " units".

Definition feeding_msg (n : Z) : string :=
  "🔥 CRITICAL: " ++ str_of_Z n ++ " days of feeding issues from cutting".

Definition capacity_critical_msg (row : CapacityRecord) : string :=
  "⚠️ CRITICAL: " ++ Department row ++ " capacity at "
    ++ str_of_Z (Utilization row) ++ "%".

Definition capacity_high_msg (row : CapacityRecord) : string :=
  "🔶 HIGH: " ++ Department row ++ " underutilized at "
    ++ str_of_Z (Utilization row) ++ "%".

Definition mrp_msg (n : Z) : string :=
  "📋 HIGH: " ++ str_of_Z n ++ " orders with material unavailability".

Definition pending_msg (pending_ratio : float) : string :=
  "📦 MEDIUM: " ++ format_pct1 pending_ratio ++ " of POs pending".

(** [list.append] *)
Definition append (l : list string) (s : string) : list string := (l ++ [s])%list.

(** The body of [for _, row in cap_df.iterrows()], on the two lists it
    appends to. *)
Definition capacity_step (acc : list string * list string) (row : CapacityRecord)
  : list string * list string :=
  let '(critical_issues, high_issues) := acc in
  if Utilization row <? 20 then
    (append critical_issues (capacity_critical_msg row), high_issues)
  else if Utilization row <? 40 then
    (critical_issues, append high_issues (capacity_high_msg row))
  else (critical_issues, high_issues).

Definition analyze_critical_issues : M (list string * list string * list string) :=
  let critical_issues : list string := [] in
  let high_issues : list string := [] in
  let medium_issues : list string := [] in
  (* Production analysis *)
  prod_df <- read production ;;
  let total_variance := series_sum (map Variance prod_df) in
  let critical_issues :=
    if total_variance <? -3000
    then append critical_issues (shortfall_msg total_variance)
    else critical_issues in
  (* Feeding issues: the pattern has no regular-expression metacharacter,
     so [str.contains] is a plain, case-sensitive substring search;
     [na=False] concerns missing reasons, which a record does not have. *)
  let feeding_issues :=
    filter (fun r => str_contains "FEEDING ISSUE" (Reason r)) prod_df in
  let critical_issues :=
    if 3 <=? len feeding_issues
    then append critical_issues (feeding_msg (len feeding_issues))
    else critical_issues in
  (* Capacity utilization: [iterrows] yields the rows in order; the
     table mixes strings and integers, so [row['Utilization']] is the
     integer as stored. *)
  cap_df <- read capacity ;;
  let '(critical_issues, high_issues) :=
    fold_left capacity_step cap_df (critical_issues, high_issues) in
  (* MRP issues *)
  mrp_df <- read mrp ;;
  let critical_orders := filter (fun o => String.eqb (Status o) "Critical") mrp_df in
  let high_issues :=
    if 0 <? len critical_orders
    then append high_issues (mrp_msg (len critical_orders))
    else high_issues in
  (* Procurement issues *)
  proc <- read procurement ;;
  pending_ratio <- lift (long_true_divide (Count (PO_Pending proc))
                                          (Count (PO_Issued proc))) ;;
  let medium_issues :=
    if fltb lit_0_3 pending_ratio
    then append medium_issues (pending_msg pending_ratio)
    else medium_issues in
  ret (critical_issues, high_issues, medium_issues).


(* ------------------------------------------------------------------ *)
(** ** The summary renderer: [create_summary_report] *)

Definition nl : string := String (ascii_of_nat 10) EmptyString.

(** [for issue in issues: report += f"- {issue}\n"] *)
Definition bullet_lines (report : string) (issues : list string) : string :=
  fold_left (fun report issue => report ++ "- " ++ issue ++ nl) issues report.

(** [prod['Actual_Qty'].sum() / prod['Planned_Qty'].sum() * 100], as
    the report and the metrics row compute it on [int64] columns: the
    sums wrap and the quotient is NumPy's. *)
Definition production_efficiency (prod_df : list ProductionRecord) : float :=
  fmul (np_true_divide (series_sum (map Actual_Qty prod_df))
                       (series_sum (map Planned_Qty prod_df)))
       (float_of_Z 100).

Section Renderer.

(** [str] of a Python float (the shortest repr), used once in the
    recommendations; [now] below is the formatted wall-clock time,
    [datetime.now().strftime('%d-%b-%Y %H:%M')]. *)
Variable float_repr : float -> string.

Definition create_summary_report (now : string)
    (critical_issues high_issues medium_issues : list string) : M string :=
  let report :=
    nl ++ "# 📊 SUPPLY CHAIN EXECUTIVE SUMMARY" ++ nl
       ++ "**Report Date:** " ++ now ++ nl
       ++ nl
       ++ "## 🚨 CRITICAL ALERTS (" ++ str_of_Z (len critical_issues) ++ ")" ++ nl in
  let report := bullet_lines report critical_issues in
  let report :=
    report ++ nl
       ++ "## ⚠️ HIGH PRIORITY (" ++ str_of_Z (len high_issues) ++ ")" ++ nl in
  let report := bullet_lines report high_issues in
  prod_df <- read production ;;
  let efficiency := production_efficiency prod_df in
  let variance := series_sum (map Variance prod_df) in
  cap_df <- read capacity ;;
  let avg_util := series_mean (map Utilization cap_df) in
  proc <- read procurement ;;
  po_ratio <- lift (long_true_divide (Count (PO_Received proc))
                                     (Count (PO_Issued proc))) ;;
  let po_rate := fmul po_ratio (float_of_Z 100) in
  wh <- read warehouse ;;
  ret (report ++ nl
    ++ "## 📋 KEY METRICS" ++ nl
    ++ "- **Production Efficiency:** " ++ format_f1 efficiency ++ "%" ++ nl
    ++ "- **Total Production Variance:** " ++ format_comma variance ++ " units" ++ nl
    ++ "- **Average Capacity Utilization:** " ++ format_f1 avg_util ++ "%" ++ nl
    ++ "- **PO Completion Rate:** " ++ format_f1 po_rate ++ "%" ++ nl
    ++ "- **Total FG Inventory:** " ++ format_comma (Total (FG_Stock wh)) ++ " pairs" ++ nl
    ++ nl
    ++ "## 🔄 RECOMMENDATIONS" ++ nl
    ++ "1. **URGENT:** Address feeding issues from cutting department" ++ nl
    ++ "2. **HIGH:** Increase stitching and lasting capacity utilization" ++ nl
    ++ "3. **MEDIUM:** Expedite pending material orders (679, 681)" ++ nl
    ++ "4. **MEDIUM:** Follow up on " ++ str_of_Z (Count (PO_Pending proc))
    ++ " pending POs worth pkr" ++ float_repr (Amount (PO_Pending proc)) ++ "M" ++ nl).

End Renderer.

(* ------------------------------------------------------------------ *)
(** ** The export serializer: [export_report_to_excel]

    The spreadsheet is built by pandas and openpyxl, which are not part
    of the repository: how a cell is stored, which frames are refused
    and the bytes of the file are theirs. The export is modelled over
    the library calls it makes, each of which may raise; the frames and
    names it passes to them, and their order, are the source's. *)

Inductive cell : Type :=
| CStr (s : string)
| CInt (z : Z)
| CFloat (f : float).

(** A [pandas.DataFrame]: column labels and rows. *)
Record DataFrame : Type := {
  df_columns : list string;
  df_rows : list (list cell)
}.

Record sheet : Type := {
  sheet_name : string;
  sheet_header : list string;
  sheet_rows : list (list cell)
}.

Definition workbook : Type := list sheet.

(** The record types held as DataFrames: their column labels, in the
    key order of the dict literals, the cells of a row, and the row
    read back from cells. *)
Class Frame (R : Type) : Type := {
  columns : list string;
  cells : R -> list cell;
  of_cells : list cell -> option R
}.

#[export] Instance production_frame : Frame ProductionRecord := {|
  columns := ["Date"; "Planned_Qty"; "Actual_Qty"; "Variance"; "Reason"];
  cells r := [CStr (Date r); CInt (Planned_Qty r); CInt (Actual_Qty r);
              CInt (Variance r); CStr (Reason r)];
  of_cells cs :=
    match cs with
    | [CStr d; CInt p; CInt a; CInt v; CStr r] =>
        Some {| Date := d; Planned_Qty := p; Actual_Qty := a; Variance := v; Reason := r |}
    | _ => None
    end
|}.

#[export] Instance capacity_frame : Frame CapacityRecord := {|
  columns := ["Department"; "Capacity"; "Planned_Load"; "Actual_Prod";
              "Utilization"; "MTD"];
  cells r := [CStr (Department r); CInt (Capacity r); CInt (Planned_Load r);
              CInt (Actual_Prod r); CInt (Utilization r); CInt (MTD r)];
  of_cells cs :=
    match cs with
    | [CStr d; CInt c; CInt p; CInt a; CInt u; CInt m] =>
        Some {| Department := d; Capacity := c; Planned_Load := p;
                Actual_Prod := a; Utilization := u; MTD := m |}
    | _ => None
    end
|}.

#[export] Instance mrp_frame : Frame MrpOrder := {|
  columns := ["Order"; "Ordered"; "Available"; "Status"];
  cells r := [CStr (Order r); CStr (Ordered r); CStr (Available r); CStr (Status r)];
  of_cells cs :=
    match cs with
    | [CStr o; CStr b; CStr a; CStr s] =>
        Some {| Order := o; Ordered := b; Available := a; Status := s |}
    | _ => None
    end
|}.

(** The DataFrame held under a key of [data]. *)
Definition frame_of {R : Type} `{Frame R} (records : list R) : DataFrame :=
  {| df_columns := columns; df_rows := map cells records |}.

(** The rows of the procurement and warehouse frames, as the list
    literals of the source build them. *)
Definition procurement_rows (proc : Procurement) : list (list cell) :=
  [ [CStr "PO Issued"; CInt (Count (PO_Issued proc)); CFloat (Amount (PO_Issued proc))];
    [CStr "PO Received"; CInt (Count (PO_Received proc)); CFloat (Amount (PO_Received proc))];
    [CStr "PO Pending"; CInt (Count (PO_Pending proc)); CFloat (Amount (PO_Pending proc))] ].

Definition warehouse_rows (wh : Warehouse) : list (list cell) :=
  [ [CStr "Elten"; CInt (Elten (FG_Stock wh))];
    [CStr "Bata"; CInt (Bata (FG_Stock wh))];
    [CStr "S-Step"; CInt (S_Step (FG_Stock wh))];
    [CStr "Total"; CInt (Total (FG_Stock wh))] ].

(** A library call that returns or raises, followed by the rest of the
    block. *)
Definition and_then {E A B : Type} (r : E + A) (k : A -> E + B) : E + B :=
  match r with
  | inl e => inl e
  | inr a => k a
  end.

Declare Scope lib_scope.
Delimit Scope lib_scope with lib.
Notation "x <~ c ;; k" := (and_then c (fun x => k))
  (at level 100, c at next level, right associativity) : lib_scope.
Open Scope lib_scope.

Section ExcelLibrary.

(** The exceptions of the library, the state of an open
    [pd.ExcelWriter] and the [bytes] of a file. *)
Context {E Writer Bytes : Type}.

(** [pd.ExcelWriter(output, engine='openpyxl')] over the empty buffer. *)
Variable pd_ExcelWriter : Writer.

(** [df.to_excel(writer, sheet_name=name, index=False)] *)
Variable to_excel : DataFrame -> string -> Writer -> E + Writer.

(** [pd.DataFrame(rows, columns=labels)] *)
Variable pd_DataFrame : list (list cell) -> list string -> E + DataFrame.

(** Leaving the [with] block, which saves the workbook into the
    buffer, and [output.getvalue()]. *)
Variable getvalue : Writer -> E + Bytes.

Definition export_report_to_excel (summary_report : string) (data : Snapshot)
  : (E + Bytes) * Snapshot :=
  let writer := pd_ExcelWriter in
  (* Summary sheet *)
  let summary_df :=
    {| df_columns := ["Executive Summary"]; df_rows := [[CStr summary_report]] |} in
  (writer <~ to_excel summary_df "Executive Summary" writer ;;
   (* Data sheets *)
   writer <~ to_excel (frame_of (production data)) "Production" writer ;;
   writer <~ to_excel (frame_of (capacity data)) "Capacity" writer ;;
   writer <~ to_excel (frame_of (mrp data)) "MRP" writer ;;
   (* Procurement sheet *)
   proc_df <~ pd_DataFrame (procurement_rows (procurement data))
                           ["Status"; "Count"; "Amount (M)"] ;;
   writer <~ to_excel proc_df "Procurement" writer ;;
   (* Warehouse sheet *)
   wh_df <~ pd_DataFrame (warehouse_rows (warehouse data)) ["Brand"; "Stock (Pairs)"] ;;
   writer <~ to_excel wh_df "Warehouse" writer ;;
   getvalue writer,
   data).

End ExcelLibrary.

(* ------------------------------------------------------------------ *)
(** ** Vocabulary of the specification

    The definitions below come from the wording of the specification,
    not from the source; the properties compare the source with them. *)

(** The sum of a list of integers, without wrap-around. *)
Definition Zsum (l : list Z) : Z := fold_right Z.add 0 l.

(** [Pending.Count / Issued.Count] *)
Definition pending_ratio (d : Snapshot) : result float :=
  long_true_divide (Count (PO_Pending (procurement d))) (Count (PO_Issued (procurement d))).

(** [Received.Count / Issued.Count] *)
Definition po_ratio (d : Snapshot) : result float :=
  long_true_divide (Count (PO_Received (procurement d))) (Count (PO_Issued (procurement d))).

(** The five rules of the classifier, one at a time. *)
Definition shortfall_rule (prod_df : list ProductionRecord) : list string :=
  let total := series_sum (map Variance prod_df) in
  if total <? -3000 then [shortfall_msg total] else [].

Definition feeding_count (prod_df : list ProductionRecord) : Z :=
  len (filter (fun r => str_contains "FEEDING ISSUE" (Reason r)) prod_df).

Definition feeding_rule (prod_df : list ProductionRecord) : list string :=
  if 3 <=? feeding_count prod_df then [feeding_msg (feeding_count prod_df)] else [].

Definition capacity_critical (cap_df : list CapacityRecord) : list string :=
  map capacity_critical_msg (filter (fun row => Utilization row <? 20) cap_df).

Definition capacity_high (cap_df : list CapacityRecord) : list string :=
  map capacity_high_msg
      (filter (fun row => (20 <=? Utilization row) && (Utilization row <? 40)) cap_df).

Definition critical_count (mrp_df : list MrpOrder) : Z :=
  len (filter (fun o => String.eqb (Status o) "Critical") mrp_df).

Definition mrp_rule (mrp_df : list MrpOrder) : list string :=
  if 0 <? critical_count mrp_df then [mrp_msg (critical_count mrp_df)] else [].

Definition pending_rule (ratio : float) : list string :=
  if fltb lit_0_3 ratio then [pending_msg ratio] else [].

(** Recognisers of the issue kinds, by the fixed head of their text. *)
Definition is_shortfall (s : string) : bool :=
  String.prefix "🚨 CRITICAL: Production shortfall of " s.

Definition is_feeding (s : string) : bool :=
  String.prefix "🔥 CRITICAL: " s.

(** Two snapshots that agree on everything but the [Ordered] and
    [Available] flags of their MRP orders. *)
Definition same_order_and_status (o1 o2 : MrpOrder) : Prop :=
  Order o1 = Order o2 /\ Status o1 = Status o2.

Definition differ_in_mrp_flags_only (d1 d2 : Snapshot) : Prop :=
  production d1 = production d2
  /\ capacity d1 = capacity d2
  /\ Forall2 same_order_and_status (mrp d1) (mrp d2)
  /\ procurement d1 = procurement d2
  /\ imports d1 = imports d2
  /\ warehouse d1 = warehouse d2.

(** Modelled from the spec: the re-reading of the exported sheets. The
    source only writes them; the reader below follows the round-trip
    property of the specification: a sheet is found by name, its header
    must be the domain's column list, and every row must have the
    domain's cell types. *)
Definition find_sheet (name : string) (wb : workbook) : option sheet :=
  find (fun sh => String.eqb (sheet_name sh) name) wb.

(** Modelled from the spec: the rows of a sheet read back as records. *)
Fixpoint read_rows {R : Type} `{Frame R} (rows : list (list cell)) : option (list R) :=
  match rows with
  | [] => Some []
  | row :: rest =>
      match of_cells row, read_rows rest with
      | Some r, Some rs => Some (r :: rs)
      | _, _ => None
      end
  end.

(** Modelled from the spec: a table sheet read back. *)
Definition reread_frame {R : Type} `{Frame R} (name : string) (wb : workbook)
  : option (list R) :=
  match find_sheet name wb with
  | Some sh =>
      if list_eq_dec string_dec (sheet_header sh) columns
      then read_rows (sheet_rows sh) else None
  | None => None
  end.

(** Modelled from the spec: the procurement sheet read back as the three buckets. *)
Definition reread_procurement (wb : workbook) : option Procurement :=
  match find_sheet "Procurement" wb with
  | Some sh =>
      match sheet_header sh, sheet_rows sh with
      | ["Status"; "Count"; "Amount (M)"],
        [ [CStr "PO Issued"; CInt c1; CFloat a1];
          [CStr "PO Received"; CInt c2; CFloat a2];
          [CStr "PO Pending"; CInt c3; CFloat a3] ] =>
          Some {| PO_Issued := {| Count := c1; Amount := a1 |};
                  PO_Received := {| Count := c2; Amount := a2 |};
                  PO_Pending := {| Count := c3; Amount := a3 |} |}
      | _, _ => None
      end
  | None => None
  end.

(** Modelled from the spec: the warehouse sheet read back as the finished-goods stock. *)
Definition reread_fg_stock (wb : workbook) : option FGStock :=
  match find_sheet "Warehouse" wb with
  | Some sh =>
      match sheet_header sh, sheet_rows sh with
      | ["Brand"; "Stock (Pairs)"],
        [ [CStr "Elten"; CInt e]; [CStr "Bata"; CInt b];
          [CStr "S-Step"; CInt s]; [CStr "Total"; CInt t] ] =>
          Some {| Elten := e; Bata := b; S_Step := s; Total := t |}
      | _, _ => None
      end
  | None => None
  end.

(** Modelled from the spec: the summary sheet read back as its text. *)
Definition reread_summary (wb : workbook) : option string :=
  match find_sheet "Executive Summary" wb with
  | Some sh =>
      match sheet_header sh, sheet_rows sh with
      | ["Executive Summary"], [ [CStr text] ] => Some text
      | _, _ => None
      end
  | None => None
  end.

(** The sheet a frame is written as: its name, its column labels as
    the header row, and its rows. *)
Definition sheet_of (name : string) (df : DataFrame) : sheet :=
  {| sheet_name := name; sheet_header := df_columns df; sheet_rows := df_rows df |}.

(** The frames of one export with their sheet names, in the order of
    the [to_excel] calls. *)
Definition exported_frames (summary_report : string) (d : Snapshot)
  : list (string * DataFrame) :=
  [ ("Executive Summary",
     {| df_columns := ["Executive Summary"]; df_rows := [[CStr summary_report]] |});
    ("Production", frame_of (production d));
    ("Capacity", frame_of (capacity d));
    ("MRP", frame_of (mrp d));
    ("Procurement",
     {| df_columns := ["Status"; "Count"; "Amount (M)"];
        df_rows := procurement_rows (procurement d) |});
    ("Warehouse",
     {| df_columns := ["Brand"; "Stock (Pairs)"];
        df_rows := warehouse_rows (warehouse d) |}) ].

Section Reading.

Context {E Writer Bytes : Type}.
Variable pd_ExcelWriter : Writer.
Variable to_excel : DataFrame -> string -> Writer -> E + Writer.
Variable pd_DataFrame : list (list cell) -> list string -> E + DataFrame.
Variable getvalue : Writer -> E + Bytes.

(** Modelled from the spec: the reader of a written file, which the
    round-trip property presupposes and the source does not have. *)
Variable read_excel : Bytes -> option workbook.

(** The library stores one export losslessly, as far as [read_excel]
    can tell: some invariant [holds writer wb] ("the sheets written so
    far read back as [wb]") is true of the fresh writer and of no
    sheets, is kept by writing any frame of this export, which is
    accepted and read back as the sheet of that frame, and carries over
    to the bytes returned; and the two frames built from list literals
    hold the cells given. Storage that rounds a number, drops an empty
    string or refuses a character does not meet it on such a cell. *)
Definition stores_losslessly (summary_report : string) (d : Snapshot) : Prop :=
  exists holds : Writer -> workbook -> Prop,
    holds pd_ExcelWriter []
    /\ (forall name df writer wb,
          In (name, df) (exported_frames summary_report d) ->
          holds writer wb ->
          exists writer',
            to_excel df name writer = inr writer'
            /\ holds writer' (wb ++ [sheet_of name df])%list)
    /\ pd_DataFrame (procurement_rows (procurement d)) ["Status"; "Count"; "Amount (M)"]
       = inr {| df_columns := ["Status"; "Count"; "Amount (M)"];
                df_rows := procurement_rows (procurement d) |}
    /\ pd_DataFrame (warehouse_rows (warehouse d)) ["Brand"; "Stock (Pairs)"]
       = inr {| df_columns := ["Brand"; "Stock (Pairs)"];
                df_rows := warehouse_rows (warehouse d) |}
    /\ (forall writer wb,
          holds writer wb ->
          exists bytes, getvalue writer = inr bytes /\ read_excel bytes = Some wb).

End Reading.

(* ------------------------------------------------------------------ *)
(** ** Tables as pandas holds them

    An integer column is an [int64] column when each of its values fits
    64 bits; [sum], [mean] and [/] on it are then NumPy's, as modelled
    in [Num]. A column with a larger value is held as [uint64] or as
    Python objects and follows other rules, and a table built from an
    empty list of records has no columns to read. The properties that
    depend on either are stated for tables with rows whose quantities,
    variances and utilizations fit 64 bits. *)

Definition fits_int64 (z : Z) : Prop := - 2 ^ 63 <= z < 2 ^ 63.

Definition int64_tables (d : Snapshot) : Prop :=
  production d <> [] /\ capacity d <> [] /\ mrp d <> []
  /\ Forall (fun r => fits_int64 (Planned_Qty r) /\ fits_int64 (Actual_Qty r)
                       /\ fits_int64 (Variance r)) (production d)
  /\ Forall (fun row => fits_int64 (Utilization row)) (capacity d).

(* ------------------------------------------------------------------ *)
(** ** Concrete inputs: variants of the compiled-in snapshot *)

Definition with_procurement_counts (issued received pending : Z) (d : Snapshot)
  : Snapshot :=
  {| production := production d; capacity := capacity d; mrp := mrp d;
     procurement :=
       {| PO_Issued := {| Count := issued; Amount := Amount (PO_Issued (procurement d)) |};
          PO_Received := {| Count := received; Amount := Amount (PO_Received (procurement d)) |};
          PO_Pending := {| Count := pending; Amount := Amount (PO_Pending (procurement d)) |} |};
     imports := imports d; warehouse := warehouse d |}.

Definition with_production (prod_df : list ProductionRecord) (d : Snapshot) : Snapshot :=
  {| production := prod_df; capacity := capacity d; mrp := mrp d;
     procurement := procurement d; imports := imports d; warehouse := warehouse d |}.

Definition with_mrp (mrp_df : list MrpOrder) (d : Snapshot) : Snapshot :=
  {| production := production d; capacity := capacity d; mrp := mrp_df;
     procurement := procurement d; imports := imports d; warehouse := warehouse d |}.

Definition with_imports (imp : ImportStatus) (d : Snapshot) : Snapshot :=
  {| production := production d; capacity := capacity d; mrp := mrp d;
     procurement := procurement d; imports := imp; warehouse := warehouse d |}.

(** A single day of production with the given variance. *)
Definition one_day (variance : Z) : list ProductionRecord :=
  [ {| Date := "17-Jun-2025"; Planned_Qty := 4000; Actual_Qty := 4000 + variance;
       Variance := variance; Reason := "Loading" |} ].

(** The IEEE-754 quotient of two positive integers taken as exact
    mantissas, by the standard library's reference division. *)
Definition reference_quotient (a b : Z) : float :=
  SFdiv 53 1024 (S754_finite false (Z.to_pos a) 0) (S754_finite false (Z.to_pos b) 0).

Definition agrees_with_reference (ab : Z * Z) : bool :=
  match round_ratio false (fst ab) (snd ab), reference_quotient (fst ab) (snd ab) with
  | Some (S754_finite s m e), S754_finite s' m' e' =>
      Bool.eqb s s' && Pos.eqb m m' && (e =? e')
  | Some (S754_zero s), S754_zero s' => Bool.eqb s s'
  | None, S754_infinity _ => true
  | _, _ => false
  end.

(** Quotients in the normal range, at both ends of the subnormal range,
    at exact ties and at the overflow threshold. *)
Definition sample_quotients : list (Z * Z) :=
  [ (3, 10); (31, 100); (36, 92); (56, 92); (1, 3); (2, 3); (1, 1); (7, 1);
    (1, 1024); (2 ^ 53 + 1, 1); (2 ^ 53 + 3, 1); (2 ^ 54 + 2, 3);
    (2 ^ 53 + 1, 2 ^ 53 - 1); (2 ^ 60 + 12345, 987654321);
    (123456789012345678901234567890, 98765432109876543210);
    (1, 2 ^ 1074); (1, 2 ^ 1075); (3, 2 ^ 1076); (1, 2 ^ 1076); (5, 2 ^ 1077);
    (2 ^ 52 + 1, 2 ^ 1075); (2 ^ 53 - 1, 2 ^ 1075); (1, 2 ^ 1022); (3, 2 ^ 1024);
    (2 ^ 1024 - 2 ^ 970, 1); (2 ^ 1024 - 2 ^ 970 - 1, 1); (2 ^ 1024 - 2 ^ 971, 1);
    (2 ^ 1024, 1); (2 ^ 1030, 3); (2 ^ 1100, 1); (2 ^ 1025 - 1, 2) ].

(** A library that accepts every frame and keeps the sheets as they
    are handed over; its file is the list of sheets. *)
Definition keep_sheet (df : DataFrame) (name : string) (writer : workbook)
  : exn + workbook :=
  inr (writer ++ [sheet_of name df])%list.

Definition keep_frame (rows : list (list cell)) (labels : list string)
  : exn + DataFrame :=
  inr {| df_columns := labels; df_rows := rows |}.

Definition keep_file (writer : workbook) : exn + workbook := inr writer.

(** The compiled-in production days with nothing planned. *)
Definition unplanned_production : list ProductionRecord :=
  map (fun r => {| Date := Date r; Planned_Qty := 0; Actual_Qty := Actual_Qty r;
                   Variance := Actual_Qty r; Reason := Reason r |})
      (production parse_supply_chain_data).

(** An imports domain other than the compiled-in one. *)
Definition other_imports : ImportStatus :=
  {| PI := {| PI_Total := 13; PI_Received := 12; PI_Approved := 12; PI_Pending := 1 |};
     Payment := Payment (imports parse_supply_chain_data);
     Shipment := Shipment (imports parse_supply_chain_data) |}.

(* ------------------------------------------------------------------ *)
(** ** What each function reads of a snapshot *)

(** The values [analyze_critical_issues] takes from [data]: the
    variance and reason columns, the department and utilization
    columns, the status column and the pending and issued counts. *)
Definition classifier_inputs (d : Snapshot)
  : list Z * list string * list (string * Z) * list string * Z * Z :=
  (map Variance (production d),
   map Reason (production d),
   map (fun row => (Department row, Utilization row)) (capacity d),
   map Status (mrp d),
   Count (PO_Pending (procurement d)),
   Count (PO_Issued (procurement d))).

(** The values [create_summary_report] takes from [data]. *)
Definition report_inputs (d : Snapshot)
  : list Z * list Z * list Z * list Z * Z * Z * PoBucket * Z :=
  (map Actual_Qty (production d),
   map Planned_Qty (production d),
   map Variance (production d),
   map Utilization (capacity d),
   Count (PO_Received (procurement d)),
   Count (PO_Issued (procurement d)),
   PO_Pending (procurement d),
   Total (FG_Stock (warehouse d))).

(** The values [export_report_to_excel] takes from [data]. *)
Definition export_inputs (d : Snapshot)
  : list ProductionRecord * list CapacityRecord * list MrpOrder * Procurement * FGStock :=
  (production d, capacity d, mrp d, procurement d, FG_Stock (warehouse d)).

Definition is_mrp (s : string) : bool := String.prefix "📋 HIGH: " s.

(** The bullet lines of a list of issues, as one string. *)
Definition bullets (issues : list string) : string :=
  fold_right (fun issue rest => "- " ++ issue ++ nl ++ rest) EmptyString issues.

Definition with_capacity (cap_df : list CapacityRecord) (d : Snapshot) : Snapshot :=
  {| production := production d; capacity := cap_df; mrp := mrp d;
     procurement := procurement d; imports := imports d; warehouse := warehouse d |}.

Definition with_warehouse (wh : Warehouse) (d : Snapshot) : Snapshot :=
  {| production := production d; capacity := capacity d; mrp := mrp d;
     procurement := procurement d; imports := imports d; warehouse := wh |}.

(** A snapshot on which no rule fires. *)
Definition quiet_snapshot : Snapshot :=
  with_production (one_day 25)
    (with_capacity
       [ {| Department := "Cutting"; Capacity := 3000; Planned_Load := 1823;
            Actual_Prod := 1800; Utilization := 60; MTD := 8763 |};
         {| Department := "Stitching"; Capacity := 2788; Planned_Load := 1200;
            Actual_Prod := 1115; Utilization := 40; MTD := 7974 |} ]
       (with_mrp
          [ {| Order := "673"; Ordered := "Yes"; Available := "Yes"; Status := "Complete" |};
            {| Order := "680"; Ordered := "Yes"; Available := "No"; Status := "Pending" |} ]
          (with_procurement_counts 100 70 30 parse_supply_chain_data))).

(** The compiled-in snapshot with other dates, quantities, capacities,
    order numbers, flags, amounts, imports and stock. *)
Definition relabelled_snapshot : Snapshot := {|
  production :=
    map (fun r => {| Date := "01-Jul-2025"; Planned_Qty := 0; Actual_Qty := 7;
                     Variance := Variance r; Reason := Reason r |})
        (production parse_supply_chain_data);
  capacity :=
    map (fun row => {| Department := Department row; Capacity := 1; Planned_Load := 2;
                       Actual_Prod := 3; Utilization := Utilization row; MTD := 4 |})
        (capacity parse_supply_chain_data);
  mrp :=
    map (fun o => {| Order := "000"; Ordered := "No"; Available := "Yes";
                     Status := Status o |})
        (mrp parse_supply_chain_data);
  procurement := {|
    PO_Issued := {| Count := 92; Amount := S754_zero false |};
    PO_Received := {| Count := 1; Amount := S754_zero false |};
    PO_Pending := {| Count := 36; Amount := S754_zero false |} |};
  imports := {|
    PI := {| PI_Total := 0; PI_Received := 0; PI_Approved := 0; PI_Pending := 0 |};
    Payment := {| Payment_Done := 0; Payment_Pending := 0; Payment_Total := 0 |};
    Shipment := {| May := 0; June := 0; July := 0 |} |};
  warehouse := {|
    FG_Stock := {| Elten := 0; Bata := 0; S_Step := 0; Total := 0 |};
    GRN := {| GRN_Total := 0; GRN_Done := 0; GRN_Pending := 0 |} |}
|}.

(* ------------------------------------------------------------------ *)
(** ** The report in closed form *)

(** The title, the date and the two issue sections. *)
Definition report_head (now : string) (critical_issues high_issues : list string)
  : string :=
  nl ++ "# 📊 SUPPLY CHAIN EXECUTIVE SUMMARY" ++ nl
     ++ "**Report Date:** " ++ now ++ nl
     ++ nl
     ++ "## 🚨 CRITICAL ALERTS (" ++ str_of_Z (len critical_issues) ++ ")" ++ nl
     ++ bullets critical_issues
     ++ nl
     ++ "## ⚠️ HIGH PRIORITY (" ++ str_of_Z (len high_issues) ++ ")" ++ nl
     ++ bullets high_issues.

(** The key metrics and the recommendations, given the PO completion
    ratio. *)
Definition report_tail (float_repr : float -> string) (d : Snapshot) (po : float)
  : string :=
  nl ++ "## 📋 KEY METRICS" ++ nl
     ++ "- **Production Efficiency:** "
     ++ format_f1 (production_efficiency (production d)) ++ "%" ++ nl
     ++ "- **Total Production Variance:** "
     ++ format_comma (series_sum (map Variance (production d))) ++ " units" ++ nl
     ++ "- **Average Capacity Utilization:** "
     ++ format_f1 (series_mean (map Utilization (capacity d))) ++ "%" ++ nl
     ++ "- **PO Completion Rate:** " ++ format_f1 (fmul po (float_of_Z 100)) ++ "%" ++ nl
     ++ "- **Total FG Inventory:** "
     ++ format_comma (Total (FG_Stock (warehouse d))) ++ " pairs" ++ nl
     ++ nl
     ++ "## 🔄 RECOMMENDATIONS" ++ nl
     ++ "1. **URGENT:** Address feeding issues from cutting department" ++ nl
     ++ "2. **HIGH:** Increase stitching and lasting capacity utilization" ++ nl
     ++ "3. **MEDIUM:** Expedite pending material orders (679, 681)" ++ nl
     ++ "4. **MEDIUM:** Follow up on " ++ str_of_Z (Count (PO_Pending (procurement d)))
     ++ " pending POs worth pkr" ++ float_repr (Amount (PO_Pending (procurement d)))
     ++ "M" ++ nl.

(** The text of a returned report (empty if the renderer raised). *)
Definition returned_text (r : result string) : string :=
  match r with
  | inr text => text
  | inl _ => EmptyString
  end.

(* ------------------------------------------------------------------ *)
(** ** The charts: [create_production_chart], [create_capacity_chart]

    A figure is modelled as what the source hands to Plotly: the bar
    traces in the order added, each with the keyword arguments given,
    and the layout settings. *)

(** [marker_color]: one colour name, or one per bar. *)
Inductive marker_color : Type :=
| OneColor (c : string)
| ColorPerBar (cs : list string).

(** [go.Bar(...)] *)
Record Bar : Type := {
  bar_x : list string;
  bar_y : list Z;
  bar_name : string;
  bar_marker_color : marker_color;
  bar_opacity : option float;
  bar_text : option (list string);
  bar_textposition : option string
}.

Record Layout : Type := {
  layout_title : option string;
  layout_yaxis_title : option string;
  layout_height : option Z;
  layout_template : option string
}.

Record Figure : Type := {
  fig_data : list Bar;
  fig_layout : Layout
}.

(** [go.Figure()] *)
Definition new_figure : Figure :=
  {| fig_data := [];
     fig_layout := {| layout_title := None; layout_yaxis_title := None;
                      layout_height := None; layout_template := None |} |}.

(** [fig.add_trace(bar)] *)
Definition add_trace (fig : Figure) (bar : Bar) : Figure :=
  {| fig_data := (fig_data fig ++ [bar])%list; fig_layout := fig_layout fig |}.

(** [fig.update_layout(...)]: the keywords given replace the settings. *)
Definition update_layout (fig : Figure) (title yaxis_title : option string)
    (height : option Z) (template : option string) : Figure :=
  let old := fig_layout fig in
  let pick {A : Type} (new current : option A) : option A :=
    match new with Some _ => new | None => current end in
  {| fig_data := fig_data fig;
     fig_layout := {| layout_title := pick title (layout_title old);
                      layout_yaxis_title := pick yaxis_title (layout_yaxis_title old);
                      layout_height := pick height (layout_height old);
                      layout_template := pick template (layout_template old) |} |}.

Definition create_production_chart (prod_df : list ProductionRecord) : Figure :=
  let fig := new_figure in
  let fig :=
    add_trace fig
      {| bar_x := map Date prod_df;
         bar_y := map Planned_Qty prod_df;
         bar_name := "Planned";
         bar_marker_color := OneColor "lightblue";
         bar_opacity := Some (decimal_literal 7 1);
         bar_text := None;
         bar_textposition := None |} in
  let fig :=
    add_trace fig
      {| bar_x := map Date prod_df;
         bar_y := map Actual_Qty prod_df;
         bar_name := "Actual";
         bar_marker_color :=
           ColorPerBar (map (fun v => if v <? 0 then "red" else "green")
                            (map Variance prod_df));
         bar_opacity := None;
         bar_text := None;
         bar_textposition := None |} in
  update_layout fig (Some "📊 Production Plan vs Actual") None (Some 300)
    (Some "plotly_dark").

Definition create_capacity_chart (cap_df : list CapacityRecord) : Figure :=
  let fig := new_figure in
  let fig :=
    add_trace fig
      {| bar_x := map Department cap_df;
         bar_y := map Utilization cap_df;
         bar_name := "Utilization %";
         bar_marker_color :=
           ColorPerBar (map (fun x => if x <? 30 then "red"
                                      else if x <? 60 then "orange" else "green")
                            (map Utilization cap_df));
         bar_opacity := None;
         bar_text := Some (map (fun x => str_of_Z x ++ "%") (map Utilization cap_df));
         bar_textposition := Some "auto" |} in
  update_layout fig (Some "⚡ Capacity Utilization by Department")
    (Some "Utilization %") (Some 300) (Some "plotly_dark").

(* ------------------------------------------------------------------ *)
(** ** Two blocks of [main]

    [main] is a sequence of Streamlit calls. Two of its blocks carry
    logic of their own and are modelled as functions of the variables
    they use: the alert block, as the HTML bodies it passes to
    [st.markdown] in order, and the styling of the MRP table, as the
    CSS it gives the [Status] cell of each row. *)

(** The double quote character. *)
Definition dq : string := String (ascii_of_nat 34) EmptyString.

(** [f'<div class="{class}">{issue}</div>'] *)
Definition alert_div (class issue : string) : string :=
  "<div class=" ++ dq ++ class ++ dq ++ ">" ++ issue ++ "</div>".

Definition success_box : string :=
  "<div class=" ++ dq ++ "success-box" ++ dq ++ ">"
    ++ "✅ All Systems Operating Normally" ++ "</div>".

(** The truth value of a list in an [if]. *)
Definition truthy {A : Type} (l : list A) : bool :=
  match l with
  | [] => false
  | _ :: _ => true
  end.

(** Lines 312 to 325 of [main]. *)
Definition alert_section (critical_issues high_issues medium_issues : list string)
  : list string :=
  let shown : list string := [] in
  let shown :=
    if truthy critical_issues
    then fold_left (fun shown issue => append shown (alert_div "critical-alert" issue))
                   critical_issues shown
    else shown in
  let shown :=
    if truthy high_issues
    then fold_left (fun shown issue => append shown (alert_div "high-alert" issue))
                   high_issues shown
    else shown in
  let shown :=
    if truthy medium_issues
    then fold_left (fun shown issue => append shown (alert_div "medium-alert" issue))
                   medium_issues shown
    else shown in
  if negb (existsb (fun x => x)
                   [truthy critical_issues; truthy high_issues; truthy medium_issues])
  then append shown success_box
  else shown.

(** The lambda of [style.applymap(..., subset=['Status'])], lines 374
    to 378 of [main]. *)
Definition status_style (x : string) : string :=
  if String.eqb x "Critical" then "background-color: #ffcccc"
  else if String.eqb x "Pending" then "background-color: #fff3cd"
  else "".

(** The style of the [Status] cell of each row of the MRP table. *)
Definition mrp_status_styles (mrp_df : list MrpOrder) : list string :=
  map (fun o => status_style (Status o)) mrp_df.

(* ================================================================== *)
(** * Properties *)

(** ** Correctly rounded division depends on the ratio only *)

Section Rounding.

Lemma round_half_even_scale (k N D : Z) :
  0 < k -> 0 < D -> round_half_even (k * N) (k * D) = round_half_even N D.
Proof.
  intros Hk HD. unfold round_half_even.
  rewrite Z.div_mul_cancel_l by lia.
  rewrite Z.mul_mod_distr_l by lia.
  replace (2 * (k * (N mod D))) with (k * (2 * (N mod D))) by ring.
  rewrite <- (Zmult_compare_compat_l (2 * (N mod D)) D k) by lia.
  reflexivity.
Qed.

Lemma ilog2_ratio_scale (k n d : Z) :
  0 < k -> 0 < n -> 0 < d -> ilog2_ratio (k * n) (k * d) = ilog2_ratio n d.
Proof.
  intros Hk Hn Hd. unfold ilog2_ratio.
  replace (k * d <=? k * n) with (d <=? n).
  2:{ destruct (Z.leb_spec d n), (Z.leb_spec (k * d) (k * n)); try reflexivity; nia. }
  replace (- (k * d)) with (k * - d) by ring.
  rewrite !Z.div_mul_cancel_l by lia.
  reflexivity.
Qed.

Lemma round_ratio_scale (s : bool) (k n d : Z) :
  0 < k -> 0 < n -> 0 < d -> round_ratio s (k * n) (k * d) = round_ratio s n d.
Proof.
  intros Hk Hn Hd. unfold round_ratio.
  rewrite ilog2_ratio_scale by assumption.
  rewrite <- !Z.mul_assoc.
  rewrite round_half_even_scale; [reflexivity | assumption |].
  apply Z.mul_pos_pos; [assumption |].
  apply Z.pow_pos_nonneg; lia.
Qed.

(** Two fractions with the same value round to the same float. *)
Lemma round_ratio_cross (s : bool) (a b n d : Z) :
  0 < a -> 0 < b -> 0 < n -> 0 < d -> a * d = b * n ->
  round_ratio s a b = round_ratio s n d.
Proof.
  intros Ha Hb Hn Hd E.
  rewrite <- (round_ratio_scale s d a b) by assumption.
  rewrite <- (round_ratio_scale s b n d) by assumption.
  f_equal; lia.
Qed.

Lemma long_true_divide_cross (a b n d : Z) :
  0 < n -> 0 < d -> b <> 0 -> a * d = b * n ->
  long_true_divide a b = long_true_divide n d.
Proof.
  intros Hn Hd Hb E. unfold long_true_divide.
  assert (Ha : a <> 0) by nia.
  destruct (Z.eqb_spec b 0) as [|_]; [contradiction|].
  destruct (Z.eqb_spec a 0) as [|_]; [contradiction|].
  destruct (Z.eqb_spec d 0) as [|_]; [lia|].
  destruct (Z.eqb_spec n 0) as [|_]; [lia|].
  assert (Hs : xorb (a <? 0) (b <? 0) = xorb (n <? 0) (d <? 0)).
  { destruct (Z.ltb_spec a 0), (Z.ltb_spec b 0), (Z.ltb_spec n 0), (Z.ltb_spec d 0);
      try reflexivity; nia. }
  rewrite Hs.
  rewrite (round_ratio_cross _ (Z.abs a) (Z.abs b) (Z.abs n) (Z.abs d));
    [reflexivity | lia | lia | lia | lia |].
  rewrite <- !Z.abs_mul. f_equal. exact E.
Qed.

End Rounding.

(** The rounding of [long_true_divide] agrees with the standard
    library's reference division on the samples. *)
Example round_ratio_agrees_with_reference :
  forallb agrees_with_reference sample_quotients = true.
Proof. vm_compute. reflexivity. Qed.

(** Small operands: the quotient is that of the two converted floats. *)
Example long_true_divide_small :
  long_true_divide 36 92 = inr (fdiv (float_of_Z 36) (float_of_Z 92))
  /\ long_true_divide 3 10 = inr (fdiv (float_of_Z 3) (float_of_Z 10))
  /\ long_true_divide (-31) 100 = inr (fdiv (float_of_Z (-31)) (float_of_Z 100))
  /\ long_true_divide 0 (-5) = inr (fdiv (float_of_Z 0) (float_of_Z (-5)))
  /\ long_true_divide 5 0 = inl ZeroDivisionError
  /\ long_true_divide (10 ^ 400) 1 = inl OverflowError.
Proof. vm_compute. repeat split. Qed.

(** [.1f] rounds the exact binary value: 0.25 is a tie and goes to the
    even digit, 0.35 lies just below its decimal and 0.05 just above. *)
Example format_f1_samples :
  format_f1 (decimal_literal 25 2) = "0.2"
  /\ format_f1 (decimal_literal 35 2) = "0.3"
  /\ format_f1 (decimal_literal 5 2) = "0.1"
  /\ format_f1 (decimal_literal 75 2) = "0.8"
  /\ format_f1 (decimal_literal 99996 2) = "1000.0"
  /\ format_f1 (fdiv (float_of_Z (-1)) (float_of_Z 0)) = "-inf"
  /\ format_comma (-1234567) = "-1,234,567"
  /\ format_comma 999 = "999"
  /\ format_comma 0 = "0".
Proof. vm_compute. repeat split. Qed.

(** ** Integer columns *)

Section Int64.

Lemma wrap64_small (z : Z) : - 2 ^ 63 <= z < 2 ^ 63 -> wrap64 z = z.
Proof.
  intros H. unfold wrap64.
  rewrite Z.mod_small by lia. lia.
Qed.

Lemma wrap64_add_l (a b : Z) : wrap64 (wrap64 a + b) = wrap64 (a + b).
Proof.
  unfold wrap64.
  replace ((a + 2 ^ 63) mod 2 ^ 64 - 2 ^ 63 + b + 2 ^ 63)
    with ((a + 2 ^ 63) mod 2 ^ 64 + b) by ring.
  rewrite Zplus_mod_idemp_l.
  do 2 f_equal. ring.
Qed.

Lemma fold_wrap64 (l : list Z) (acc : Z) :
  fold_left (fun a v => wrap64 (a + v)) l (wrap64 acc) = wrap64 (acc + Zsum l).
Proof.
  revert acc. induction l as [|x l IH]; intros acc; simpl.
  - now rewrite Z.add_0_r.
  - rewrite wrap64_add_l, IH. f_equal. ring.
Qed.

(** The column sum is the exact sum, wrapped once. *)
Lemma series_sum_wrap (l : list Z) : series_sum l = wrap64 (Zsum l).
Proof.
  unfold series_sum.
  change 0 with (wrap64 0) at 1.
  now rewrite fold_wrap64.
Qed.

End Int64.

(** ** The classifier, rule by rule *)

Section Classifier.

Lemma capacity_loop (cap_df : list CapacityRecord) (critical high : list string) :
  fold_left capacity_step cap_df (critical, high)
  = ((critical ++ capacity_critical cap_df)%list, (high ++ capacity_high cap_df)%list).
Proof.
  revert critical high.
  induction cap_df as [|row rows IH]; intros critical high.
  - simpl. now rewrite !app_nil_r.
  - cbn [fold_left]. unfold capacity_step at 2.
    unfold capacity_critical, capacity_high in *. cbn [filter].
    destruct (Utilization row <? 20) eqn:E20.
    + assert (E : (20 <=? Utilization row) = false) by lia.
      rewrite E. cbn [andb map].
      rewrite IH. unfold append. now rewrite <- app_assoc.
    + assert (E : (20 <=? Utilization row) = true) by lia.
      rewrite E. cbn [andb].
      destruct (Utilization row <? 40); cbn [map]; rewrite IH;
        unfold append; now rewrite <- ?app_assoc.
Qed.

(** The classifier returns exactly when the pending ratio is defined;
    its three lists are the rules' outputs in evaluation order, and
    the snapshot is handed back as received. *)
Lemma analyze_critical_issues_eq (d : Snapshot) :
  analyze_critical_issues d
  = (match pending_ratio d with
     | inl e => inl e
     | inr r =>
         inr ((shortfall_rule (production d) ++ feeding_rule (production d)
                 ++ capacity_critical (capacity d))%list,
              (capacity_high (capacity d) ++ mrp_rule (mrp d))%list,
              pending_rule r)
     end, d).
Proof.
  unfold analyze_critical_issues, bind, read, lift, ret, pending_ratio.
  rewrite capacity_loop.
  destruct (long_true_divide _ _) as [e|r]; [reflexivity|].
  unfold shortfall_rule, feeding_rule, feeding_count, mrp_rule, critical_count,
    pending_rule, append.
  repeat match goal with
         | |- context [if ?b then _ else _] => destruct b
         end; cbn [app]; rewrite ?app_nil_r, <- ?app_assoc; reflexivity.
Qed.

Lemma not_shortfall_feeding (prod_df : list ProductionRecord) (s : string) :
  In s (feeding_rule prod_df) -> is_shortfall s = false.
Proof.
  unfold feeding_rule. destruct (3 <=? _); [|contradiction].
  intros [<-|[]]. reflexivity.
Qed.

Lemma not_shortfall_capacity (cap_df : list CapacityRecord) (s : string) :
  In s (capacity_critical cap_df) -> is_shortfall s = false.
Proof.
  unfold capacity_critical. intros H.
  apply in_map_iff in H as (row & <- & _). reflexivity.
Qed.

Lemma not_feeding_shortfall (prod_df : list ProductionRecord) (s : string) :
  In s (shortfall_rule prod_df) -> is_feeding s = false.
Proof.
  unfold shortfall_rule. destruct (_ <? _); [|contradiction].
  intros [<-|[]]. reflexivity.
Qed.

Lemma not_feeding_capacity (cap_df : list CapacityRecord) (s : string) :
  In s (capacity_critical cap_df) -> is_feeding s = false.
Proof.
  unfold capacity_critical. intros H.
  apply in_map_iff in H as (row & <- & _). reflexivity.
Qed.

End Classifier.

(** ** Production shortfall *)

Section Shortfall.

Lemma shortfall_rule_at_3000 (prod_df : list ProductionRecord) :
  Zsum (map Variance prod_df) = -3000 -> shortfall_rule prod_df = [].
Proof.
  intros E. unfold shortfall_rule.
  rewrite series_sum_wrap, E. reflexivity.
Qed.

Lemma shortfall_rule_at_3001 (prod_df : list ProductionRecord) :
  Zsum (map Variance prod_df) = -3001 ->
  shortfall_rule prod_df = ["🚨 CRITICAL: Production shortfall of 3,001 units"].
Proof.
  intros E. unfold shortfall_rule.
  rewrite series_sum_wrap, E. reflexivity.
Qed.

End Shortfall.

(** C3. When the production variances sum to exactly -3000 the
    classifier emits no production-shortfall issue; when they sum to
    -3001 its critical list opens with the one shortfall issue, whose
    text cites the shortfall as 3,001. (The classifier returns its lists
    exactly when the pending ratio is defined.) *)
Theorem C3_shortfall_threshold (d : Snapshot) :
  (Zsum (map Variance (production d)) = -3000 ->
   match pending_ratio d with
   | inl e => analyze_critical_issues d = (inl e, d)
   | inr _ =>
       exists critical high medium,
         analyze_critical_issues d = (inr (critical, high, medium), d)
         /\ forall s, In s critical -> is_shortfall s = false
   end)
  /\ (Zsum (map Variance (production d)) = -3001 ->
      match pending_ratio d with
      | inl e => analyze_critical_issues d = (inl e, d)
      | inr _ =>
          exists rest high medium,
            analyze_critical_issues d
            = (inr ("🚨 CRITICAL: Production shortfall of 3,001 units" :: rest,
                    high, medium), d)
            /\ str_contains "3,001" "🚨 CRITICAL: Production shortfall of 3,001 units" = true
            /\ forall s, In s rest -> is_shortfall s = false
      end).
Proof.
  split; intros E; rewrite analyze_critical_issues_eq;
    destruct (pending_ratio d) as [e|r]; try reflexivity.
  - rewrite (shortfall_rule_at_3000 _ E). cbn [app].
    do 3 eexists. split; [reflexivity|].
    intros s Hs. apply in_app_or in Hs as [Hs|Hs].
    + exact (not_shortfall_feeding _ _ Hs).
    + exact (not_shortfall_capacity _ _ Hs).
  - rewrite (shortfall_rule_at_3001 _ E). cbn [app].
    do 3 eexists. split; [reflexivity|]. split; [reflexivity|].
    intros s Hs. apply in_app_or in Hs as [Hs|Hs].
    + exact (not_shortfall_feeding _ _ Hs).
    + exact (not_shortfall_capacity _ _ Hs).
Qed.

Lemma C3_shortfall_threshold_witness :
  (exists critical high medium,
      analyze_critical_issues (with_production (one_day (-3000)) parse_supply_chain_data)
      = (inr (critical, high, medium),
         with_production (one_day (-3000)) parse_supply_chain_data)
      /\ forall s, In s critical -> is_shortfall s = false)
  /\ (exists rest high medium,
        analyze_critical_issues (with_production (one_day (-3001)) parse_supply_chain_data)
        = (inr ("🚨 CRITICAL: Production shortfall of 3,001 units" :: rest, high, medium),
           with_production (one_day (-3001)) parse_supply_chain_data)
        /\ str_contains "3,001" "🚨 CRITICAL: Production shortfall of 3,001 units" = true
        /\ forall s, In s rest -> is_shortfall s = false).
Proof.
  split.
  - exact (proj1 (C3_shortfall_threshold
                    (with_production (one_day (-3000)) parse_supply_chain_data))
                 eq_refl).
  - exact (proj2 (C3_shortfall_threshold
                    (with_production (one_day (-3001)) parse_supply_chain_data))
                 eq_refl).
Defined.


(** ** Pending purchase orders *)

Section PendingRatio.

(** The literal [0.3] is the float that [3 / 10] evaluates to. *)
Lemma three_tenths : long_true_divide 3 10 = inr lit_0_3.
Proof. vm_compute. reflexivity. Qed.

Lemma pending_ratio_cross (d : Snapshot) (n m : Z) :
  0 < n -> 0 < m ->
  Count (PO_Issued (procurement d)) <> 0 ->
  Count (PO_Pending (procurement d)) * m = Count (PO_Issued (procurement d)) * n ->
  pending_ratio d = long_true_divide n m.
Proof.
  intros Hn Hm Hq E. unfold pending_ratio.
  now apply long_true_divide_cross.
Qed.

Lemma pending_rule_at_30 : pending_rule lit_0_3 = [].
Proof. vm_compute. reflexivity. Qed.

Lemma pending_rule_at_31 :
  exists r, long_true_divide 31 100 = inr r
            /\ pending_rule r = ["📦 MEDIUM: 31.0% of POs pending"].
Proof. eexists. split; vm_compute; reflexivity. Qed.

End PendingRatio.

(** C4. When Pending.Count / Issued.Count is exactly 3/10 the classifier
    returns an empty medium list (the threshold is a strict [>]); when it
    is exactly 31/100 the medium list is the single issue citing 31.0%. *)
Theorem C4_pending_threshold (d : Snapshot) :
  let pending := Count (PO_Pending (procurement d)) in
  let issued := Count (PO_Issued (procurement d)) in
  (issued <> 0 -> 10 * pending = 3 * issued ->
   exists critical high,
     analyze_critical_issues d = (inr (critical, high, []), d))
  /\ (issued <> 0 -> 100 * pending = 31 * issued ->
      exists critical high,
        analyze_critical_issues d
        = (inr (critical, high, ["📦 MEDIUM: 31.0% of POs pending"]), d)
        /\ str_contains "31.0%" "📦 MEDIUM: 31.0% of POs pending" = true).
Proof.
  intros pending issued. subst pending issued.
  split; intros Hq E; rewrite analyze_critical_issues_eq.
  - rewrite (pending_ratio_cross d 3 10) by lia.
    rewrite three_tenths, pending_rule_at_30.
    do 2 eexists. reflexivity.
  - rewrite (pending_ratio_cross d 31 100) by lia.
    destruct pending_rule_at_31 as (r & -> & ->).
    do 2 eexists. split; reflexivity.
Qed.

Lemma C4_pending_threshold_witness :
  (exists critical high,
      analyze_critical_issues (with_procurement_counts 90 63 27 parse_supply_chain_data)
      = (inr (critical, high, []),
         with_procurement_counts 90 63 27 parse_supply_chain_data))
  /\ (exists critical high,
        analyze_critical_issues (with_procurement_counts 200 138 62 parse_supply_chain_data)
        = (inr (critical, high, ["📦 MEDIUM: 31.0% of POs pending"]),
           with_procurement_counts 200 138 62 parse_supply_chain_data)
        /\ str_contains "31.0%" "📦 MEDIUM: 31.0% of POs pending" = true).
Proof.
  split.
  - apply (proj1 (C4_pending_threshold
                    (with_procurement_counts 90 63 27 parse_supply_chain_data))).
    + simpl. lia.
    + reflexivity.
  - apply (proj2 (C4_pending_threshold
                    (with_procurement_counts 200 138 62 parse_supply_chain_data))).
    + simpl. lia.
    + reflexivity.
Defined.


(** ** Substring search *)

Section Substring.

Lemma prefix_app (p s : string) :
  String.prefix p s = true <-> exists post, s = p ++ post.
Proof.
  revert s. induction p as [|c p IH]; intros s.
  - split; [intros _; now exists s | intros _; now destruct s].
  - destruct s as [|c' s]; simpl.
    + split; [discriminate | intros (post & E); discriminate].
    + destruct (ascii_dec c c') as [->|Hc].
      * rewrite IH. split; intros (post & E); exists post; congruence.
      * split; [discriminate | intros (post & E); congruence].
Qed.

(** [str_contains] is the substring test of [in]. *)
Lemma str_contains_app (needle s : string) :
  str_contains needle s = true <-> exists pre post, s = pre ++ needle ++ post.
Proof.
  induction s as [|c s IH].
  - cbn [str_contains]. rewrite orb_false_r, prefix_app. split.
    + intros (post & E). now exists EmptyString, post.
    + intros ([|c pre] & post & E); [now exists post | discriminate].
  - cbn [str_contains]. rewrite orb_true_iff, prefix_app, IH. split.
    + intros [(post & E)|(pre & post & E)].
      * now exists EmptyString, post.
      * exists (String c pre), post. simpl. now rewrite E.
    + intros ([|c' pre] & post & E).
      * left. now exists post.
      * right. exists pre, post. simpl in E. congruence.
Qed.

End Substring.

(** ** Capacity *)

Section Capacity.

Lemma capacity_issue_count (cap_df : list CapacityRecord) :
  (List.length (capacity_critical cap_df) + List.length (capacity_high cap_df)
   <= List.length cap_df)%nat.
Proof.
  unfold capacity_critical, capacity_high. rewrite !length_map.
  induction cap_df as [|row rows IH]; [reflexivity|].
  cbn [filter].
  destruct (Utilization row <? 20) eqn:E20.
  - assert (E : (20 <=? Utilization row) = false) by lia.
    rewrite E. simpl. lia.
  - destruct ((20 <=? Utilization row) && (Utilization row <? 40)); simpl; lia.
Qed.

End Capacity.

(** C5. Each pass of the capacity loop appends at most one issue:
    utilization below 20 gives one critical issue naming the department
    and the percentage and nothing else, otherwise utilization below 40
    gives one high issue and nothing else, otherwise nothing. In the
    classifier's result the only capacity issues are those of the
    records below 20 (critical, after the two production rules) and of
    the records from 20 to below 40 (high, before the MRP rule), in
    record order, never more in total than there are records. *)
Theorem C5_capacity_at_most_one (d : Snapshot) :
  (forall (row : CapacityRecord) (critical high : list string),
      (Utilization row < 20
       /\ capacity_step (critical, high) row
          = (append critical ("⚠️ CRITICAL: " ++ Department row ++ " capacity at "
                                ++ str_of_Z (Utilization row) ++ "%"), high))
      \/ (20 <= Utilization row < 40
          /\ capacity_step (critical, high) row
             = (critical,
                append high ("🔶 HIGH: " ++ Department row ++ " underutilized at "
                               ++ str_of_Z (Utilization row) ++ "%")))
      \/ (40 <= Utilization row
          /\ capacity_step (critical, high) row = (critical, high)))
  /\ match pending_ratio d with
     | inl e => analyze_critical_issues d = (inl e, d)
     | inr r =>
         analyze_critical_issues d
         = (inr ((shortfall_rule (production d) ++ feeding_rule (production d)
                    ++ capacity_critical (capacity d))%list,
                 (capacity_high (capacity d) ++ mrp_rule (mrp d))%list,
                 pending_rule r), d)
     end
  /\ (List.length (capacity_critical (capacity d))
      + List.length (capacity_high (capacity d))
      <= List.length (capacity d))%nat.
Proof.
  split; [|split].
  - intros row critical high. unfold capacity_step, append.
    destruct (Z.ltb_spec (Utilization row) 20) as [H20|H20].
    + left. split; [assumption | reflexivity].
    + destruct (Z.ltb_spec (Utilization row) 40) as [H40|H40].
      * right; left. split; [lia | reflexivity].
      * right; right. split; [assumption | reflexivity].
  - rewrite analyze_critical_issues_eq.
    destruct (pending_ratio d) as [e|r]; reflexivity.
  - apply capacity_issue_count.
Qed.

(** ** Feeding issues *)

(** C6. The classifier counts the production records whose reason
    contains "FEEDING ISSUE" (byte for byte, hence case-sensitive); when
    the count is at least 3 its critical list holds exactly one feeding
    issue, citing the count, and none otherwise. The compiled-in
    snapshot has 3 such records (the lower-case "feeding issue" of 12
    June is not one) and yields the one issue "3 days of feeding issues
    from cutting". *)
Theorem C6_feeding_rule (d : Snapshot) :
  let n := len (filter (fun r => str_contains "FEEDING ISSUE" (Reason r)) (production d)) in
  match pending_ratio d with
  | inl e => analyze_critical_issues d = (inl e, d)
  | inr _ =>
      exists before after high medium,
        analyze_critical_issues d
        = (inr ((before
                   ++ (if 3 <=? n
                       then [("🔥 CRITICAL: " ++ str_of_Z n
                                ++ " days of feeding issues from cutting")%string]
                       else [])
                   ++ after)%list, high, medium), d)
        /\ (forall s, In s before -> is_feeding s = false)
        /\ (forall s, In s after -> is_feeding s = false)
  end
  /\ (forall text, str_contains "FEEDING ISSUE" text = true
                   <-> exists pre post, text = pre ++ "FEEDING ISSUE" ++ post)
  /\ str_contains "FEEDING ISSUE" "Loading end/feeding issue" = false
  /\ len (filter (fun r => str_contains "FEEDING ISSUE" (Reason r))
                 (production parse_supply_chain_data)) = 3
  /\ exists before after high medium,
      analyze_critical_issues parse_supply_chain_data
      = (inr ((before ++ ["🔥 CRITICAL: 3 days of feeding issues from cutting"]
                 ++ after)%list, high, medium), parse_supply_chain_data)
      /\ (forall s, In s before -> is_feeding s = false)
      /\ (forall s, In s after -> is_feeding s = false).
Proof.
  assert (G : forall d0,
             match pending_ratio d0 with
             | inl e => analyze_critical_issues d0 = (inl e, d0)
             | inr _ =>
                 exists before after high medium,
                   analyze_critical_issues d0
                   = (inr ((before ++ feeding_rule (production d0) ++ after)%list,
                           high, medium), d0)
                   /\ (forall s, In s before -> is_feeding s = false)
                   /\ (forall s, In s after -> is_feeding s = false)
             end).
  { intros d0. rewrite analyze_critical_issues_eq.
    destruct (pending_ratio d0) as [e|r]; [reflexivity|].
    do 4 eexists. split; [reflexivity|]. split.
    - apply not_feeding_shortfall.
    - apply not_feeding_capacity. }
  intros n. split; [|split; [|split; [|split]]].
  - exact (G d).
  - intros text. apply str_contains_app.
  - reflexivity.
  - reflexivity.
  - exact (G parse_supply_chain_data).
Qed.

(** ** Idempotence *)

(** C7. The classifier hands the snapshot back exactly as it received
    it, and a second call on it gives the same outcome as the first:
    the same three lists in the same order. *)
Theorem C7_idempotent (d : Snapshot) :
  snd (analyze_critical_issues d) = d
  /\ fst (analyze_critical_issues (snd (analyze_critical_issues d)))
     = fst (analyze_critical_issues d).
Proof.
  assert (E : snd (analyze_critical_issues d) = d)
    by (rewrite analyze_critical_issues_eq; reflexivity).
  split; [exact E | now rewrite E].
Qed.

(** ** The compiled-in snapshot *)

(** C9. On the compiled-in snapshot the classifier returns four
    critical issues, one high issue and one medium issue, with these
    texts in this order. *)
Theorem C9_compiled_in_snapshot :
  analyze_critical_issues parse_supply_chain_data
  = (inr ([ "🚨 CRITICAL: Production shortfall of 5,241 units";
            "🔥 CRITICAL: 3 days of feeding issues from cutting";
            "⚠️ CRITICAL: Stitching capacity at 14%";
            "⚠️ CRITICAL: Lasting capacity at 0%" ],
          [ "📋 HIGH: 2 orders with material unavailability" ],
          [ "📦 MEDIUM: 39.1% of POs pending" ]),
     parse_supply_chain_data).
Proof. vm_compute. reflexivity. Qed.

(** ** MRP flags *)

Section MrpFlags.

Lemma critical_count_flags (mrp1 mrp2 : list MrpOrder) :
  Forall2 same_order_and_status mrp1 mrp2 ->
  critical_count mrp1 = critical_count mrp2.
Proof.
  unfold critical_count, len. intros H. f_equal.
  induction H as [|o1 o2 l1 l2 [_ HS] _ IH]; [reflexivity|].
  cbn [filter]. rewrite HS.
  destruct (String.eqb (Status o2) "Critical"); cbn [List.length]; now rewrite IH.
Qed.

End MrpFlags.

(** C10. Two snapshots that differ only in the Ordered and Available
    flags of their MRP orders get the same outcome from the classifier:
    the same critical, high and medium lists. *)
Theorem C10_mrp_flags_ignored (d1 d2 : Snapshot) :
  differ_in_mrp_flags_only d1 d2 ->
  fst (analyze_critical_issues d1) = fst (analyze_critical_issues d2).
Proof.
  intros (Hprod & Hcap & Hmrp & Hproc & _ & _).
  rewrite !analyze_critical_issues_eq. cbn [fst].
  unfold pending_ratio, mrp_rule.
  rewrite Hprod, Hcap, Hproc, (critical_count_flags _ _ Hmrp).
  reflexivity.
Qed.

Lemma C10_mrp_flags_ignored_witness :
  fst (analyze_critical_issues parse_supply_chain_data)
  = fst (analyze_critical_issues
           (with_mrp
              [ {| Order := "673"; Ordered := "No"; Available := "No"; Status := "Complete" |};
                {| Order := "675"; Ordered := "Yes"; Available := "No"; Status := "Complete" |};
                {| Order := "677"; Ordered := "No"; Available := "Yes"; Status := "Complete" |};
                {| Order := "679"; Ordered := "Yes"; Available := "Yes"; Status := "Critical" |};
                {| Order := "680"; Ordered := "No"; Available := "Yes"; Status := "Pending" |};
                {| Order := "681"; Ordered := "Yes"; Available := "No"; Status := "Critical" |} ]
              parse_supply_chain_data)).
Proof.
  apply C10_mrp_flags_ignored.
  unfold differ_in_mrp_flags_only, same_order_and_status. simpl.
  repeat split; repeat (apply Forall2_cons; [split; reflexivity|]).
  apply Forall2_nil.
Defined.

(** ** The summary report *)

Section Report.

Variable float_repr : float -> string.
Variable now : string.
Variables critical_issues high_issues medium_issues : list string.

Lemma string_app_assoc (a b c : string) : (a ++ b) ++ c = a ++ b ++ c.
Proof. induction a as [|x a IH]; simpl; [reflexivity | now rewrite IH]. Qed.

(** The renderer returns exactly when the PO completion ratio is
    defined, and leaves the snapshot as received. *)
Lemma create_summary_report_outcome (d : Snapshot) :
  match po_ratio d with
  | inl e =>
      create_summary_report float_repr now critical_issues high_issues medium_issues d
      = (inl e, d)
  | inr _ =>
      exists before after,
        create_summary_report float_repr now critical_issues high_issues medium_issues d
        = (inr (before ++ "- **Production Efficiency:** "
                  ++ format_f1 (production_efficiency (production d)) ++ "%" ++ nl
                  ++ after), d)
  end.
Proof.
  unfold create_summary_report, bind, read, lift, ret, po_ratio.
  destruct (long_true_divide _ _) as [e|r]; [reflexivity|].
  lazymatch goal with
  | |- exists before after,
        (inr (?R ++ ?n1 ++ ?K ++ ?n2 ++ ?P ++ ?F ++ ?pc ++ ?n3 ++ ?REST), _) = _ =>
      exists (R ++ n1 ++ K ++ n2), REST
  end.
  rewrite !string_app_assoc. reflexivity.
Qed.

Lemma zero_divisor_efficiency (a : Z) :
  In (format_f1 (fmul (np_true_divide a 0) (float_of_Z 100))) ["nan"; "inf"; "-inf"].
Proof.
  unfold np_true_divide.
  change (float_of_Z 0) with (S754_zero false).
  destruct (float_of_Z a) as [s|s| |s m e]; try destruct s; vm_compute; auto.
Qed.

End Report.

(** C8. With planned quantities 800, 800, 800, 2000, 2000, 2000 and
    actual quantities 936, 1180, 650, 0, 0, 393 the totals are 8400 and
    3159, the efficiency is the float64 value of 3159 / 8400 * 100, it
    formats to one decimal as 37.6, and the report (returned whenever
    the PO completion ratio is defined) carries the line
    "- **Production Efficiency:** 37.6%". *)
Theorem C8_production_efficiency
    (float_repr : float -> string) (now : string)
    (critical_issues high_issues medium_issues : list string) (d : Snapshot) :
  map Planned_Qty (production d) = [800; 800; 800; 2000; 2000; 2000] ->
  map Actual_Qty (production d) = [936; 1180; 650; 0; 0; 393] ->
  series_sum (map Actual_Qty (production d)) = 3159
  /\ series_sum (map Planned_Qty (production d)) = 8400
  /\ production_efficiency (production d)
     = fmul (fdiv (float_of_Z 3159) (float_of_Z 8400)) (float_of_Z 100)
  /\ format_f1 (production_efficiency (production d)) = "37.6"
  /\ match po_ratio d with
     | inl e =>
         create_summary_report float_repr now critical_issues high_issues medium_issues d
         = (inl e, d)
     | inr _ =>
         exists before after,
           create_summary_report float_repr now critical_issues high_issues medium_issues d
           = (inr (before ++ "- **Production Efficiency:** 37.6%" ++ nl ++ after), d)
     end.
Proof.
  intros HP HA.
  assert (E : production_efficiency (production d)
              = fmul (fdiv (float_of_Z 3159) (float_of_Z 8400)) (float_of_Z 100)).
  { unfold production_efficiency, np_true_divide. now rewrite HP, HA. }
  assert (F : format_f1 (production_efficiency (production d)) = "37.6").
  { rewrite E. vm_compute. reflexivity. }
  split; [now rewrite HA|]. split; [now rewrite HP|].
  split; [exact E|]. split; [exact F|].
  pose proof (create_summary_report_outcome float_repr now critical_issues
                high_issues medium_issues d) as H.
  destruct (po_ratio d) as [e|r]; [exact H|].
  destruct H as (before & after & H). rewrite F in H.
  exists before, after. exact H.
Qed.

Lemma C8_production_efficiency_witness :
  format_f1 (production_efficiency (production parse_supply_chain_data)) = "37.6"
  /\ exists before after,
      create_summary_report (fun _ => "17.93") "03-Nov-2026 09:04" [] [] []
        parse_supply_chain_data
      = (inr (before ++ "- **Production Efficiency:** 37.6%" ++ nl ++ after),
         parse_supply_chain_data).
Proof.
  pose proof (C8_production_efficiency (fun _ => "17.93") "03-Nov-2026 09:04" [] [] []
                parse_supply_chain_data eq_refl eq_refl) as (_ & _ & _ & F & H).
  split; [exact F | exact H].
Defined.

(** ** Division by zero *)

Section Tables.

Lemma int64_tables_compiled_in : int64_tables parse_supply_chain_data.
Proof.
  unfold int64_tables, fits_int64.
  split; [discriminate|]. split; [discriminate|]. split; [discriminate|].
  split; repeat constructor; vm_compute; discriminate.
Qed.

Lemma int64_tables_unplanned :
  int64_tables (with_production unplanned_production parse_supply_chain_data).
Proof.
  unfold int64_tables, fits_int64.
  split; [discriminate|]. split; [discriminate|]. split; [discriminate|].
  split; repeat constructor; vm_compute; discriminate.
Qed.

End Tables.

(** C1 as stated fails: with Issued.Count 0 both the classifier and the
    summary renderer raise [ZeroDivisionError]. *)
Lemma C1_zero_issued_raises :
  Count (PO_Issued (procurement (with_procurement_counts 0 0 0 parse_supply_chain_data))) = 0
  /\ fst (analyze_critical_issues (with_procurement_counts 0 0 0 parse_supply_chain_data))
     = inl ZeroDivisionError
  /\ fst (create_summary_report (fun _ => "17.93") "03-Nov-2026 09:04" [] [] []
            (with_procurement_counts 0 0 0 parse_supply_chain_data))
     = inl ZeroDivisionError.
Proof. repeat split. Qed.

(** C1, amended. On tables with rows whose quantities, variances and
    utilizations fit 64 bits, the classifier and the summary renderer
    raise [ZeroDivisionError] to the caller exactly when Issued.Count
    is 0: the pending-ratio and PO-completion divisions are not
    guarded. A planned total of 0 raises nothing there: the division is
    NumPy's, and the efficiency is rendered as nan, inf or -inf. *)
Theorem C1_division_by_zero
    (float_repr : float -> string) (now : string)
    (critical_issues high_issues medium_issues : list string) (d : Snapshot) :
  int64_tables d ->
  (Count (PO_Issued (procurement d)) = 0 ->
   analyze_critical_issues d = (inl ZeroDivisionError, d)
   /\ create_summary_report float_repr now critical_issues high_issues medium_issues d
      = (inl ZeroDivisionError, d))
  /\ (Count (PO_Issued (procurement d)) <> 0 ->
      fst (analyze_critical_issues d) <> inl ZeroDivisionError
      /\ fst (create_summary_report float_repr now critical_issues high_issues
                medium_issues d) <> inl ZeroDivisionError)
  /\ (series_sum (map Planned_Qty (production d)) = 0 ->
      In (format_f1 (production_efficiency (production d))) ["nan"; "inf"; "-inf"]).
Proof.
  intros _.
  pose proof (create_summary_report_outcome float_repr now critical_issues
                high_issues medium_issues d) as R.
  split; [|split].
  - intros H. split.
    + rewrite analyze_critical_issues_eq. unfold pending_ratio, long_true_divide.
      rewrite H. reflexivity.
    + unfold po_ratio, long_true_divide in R. rewrite H in R. exact R.
  - intros H. split.
    + rewrite analyze_critical_issues_eq. cbn [fst].
      unfold pending_ratio, long_true_divide.
      destruct (Z.eqb_spec (Count (PO_Issued (procurement d))) 0) as [|_];
        [contradiction|].
      destruct (_ =? 0); [discriminate|].
      destruct (round_ratio _ _ _); discriminate.
    + unfold po_ratio, long_true_divide in R.
      destruct (Z.eqb_spec (Count (PO_Issued (procurement d))) 0) as [|_];
        [contradiction|].
      destruct (_ =? 0).
      * destruct R as (before & after & ->). discriminate.
      * destruct (round_ratio _ _ _).
        -- destruct R as (before & after & ->). discriminate.
        -- rewrite R. discriminate.
  - intros E. unfold production_efficiency. rewrite E.
    apply zero_divisor_efficiency.
Qed.

Lemma C1_division_by_zero_witness :
  (analyze_critical_issues (with_procurement_counts 0 0 0 parse_supply_chain_data)
   = (inl ZeroDivisionError, with_procurement_counts 0 0 0 parse_supply_chain_data)
   /\ create_summary_report (fun _ => "17.93") "03-Nov-2026 09:04" [] [] []
        (with_procurement_counts 0 0 0 parse_supply_chain_data)
      = (inl ZeroDivisionError, with_procurement_counts 0 0 0 parse_supply_chain_data))
  /\ (fst (analyze_critical_issues parse_supply_chain_data) <> inl ZeroDivisionError
      /\ fst (create_summary_report (fun _ => "17.93") "03-Nov-2026 09:04" [] [] []
                parse_supply_chain_data) <> inl ZeroDivisionError)
  /\ In (format_f1 (production_efficiency unplanned_production)) ["nan"; "inf"; "-inf"].
Proof.
  split; [|split].
  - apply (proj1 (C1_division_by_zero (fun _ => "17.93") "03-Nov-2026 09:04" [] [] []
                    (with_procurement_counts 0 0 0 parse_supply_chain_data)
                    int64_tables_compiled_in)).
    reflexivity.
  - apply (proj1 (proj2 (C1_division_by_zero (fun _ => "17.93") "03-Nov-2026 09:04" [] [] []
                           parse_supply_chain_data int64_tables_compiled_in))).
    simpl. lia.
  - apply (proj2 (proj2 (C1_division_by_zero (fun _ => "17.93") "03-Nov-2026 09:04"
                           [] [] []
                           (with_production unplanned_production parse_supply_chain_data)
                           int64_tables_unplanned))).
    reflexivity.
Defined.

(** ** Export and re-reading *)

Section Workbook.

Lemma read_rows_cells {R : Type} `{Frame R} (records : list R) :
  (forall r, of_cells (cells r) = Some r) ->
  read_rows (map cells records) = Some records.
Proof.
  intros Hinv. induction records as [|r rs IH]; [reflexivity|].
  cbn [map read_rows]. now rewrite Hinv, IH.
Qed.

Lemma production_cells (r : ProductionRecord) : of_cells (cells r) = Some r.
Proof. now destruct r. Qed.

Lemma capacity_cells (r : CapacityRecord) : of_cells (cells r) = Some r.
Proof. now destruct r. Qed.

Lemma mrp_cells (r : MrpOrder) : of_cells (cells r) = Some r.
Proof. now destruct r. Qed.

Lemma header_accepted {R : Type} `{Frame R} (rows : list (list cell)) :
  (if list_eq_dec string_dec columns columns then read_rows rows else None)
  = read_rows rows.
Proof. destruct (list_eq_dec string_dec columns columns); [reflexivity | contradiction]. Qed.

Context {E Writer Bytes : Type}.
Variable pd_ExcelWriter : Writer.
Variable to_excel : DataFrame -> string -> Writer -> E + Writer.
Variable pd_DataFrame : list (list cell) -> list string -> E + DataFrame.
Variable getvalue : Writer -> E + Bytes.

(** Whatever the library does, the outcome of an export is decided by
    the summary text, the three tables, the procurement buckets and the
    finished-goods stock. *)
Lemma export_reads_only (summary_report : string) (d d' : Snapshot) :
  export_inputs d' = export_inputs d ->
  fst (export_report_to_excel pd_ExcelWriter to_excel pd_DataFrame getvalue
         summary_report d')
  = fst (export_report_to_excel pd_ExcelWriter to_excel pd_DataFrame getvalue
           summary_report d).
Proof.
  unfold export_inputs. intros H. injection H as EP EC EM ER EF.
  unfold export_report_to_excel, warehouse_rows. cbn [fst].
  now rewrite EP, EC, EM, ER, EF.
Qed.

(** With a library that stores the export losslessly, the file reads
    back as the six sheets of the frames handed over, in order. *)
Lemma export_report_to_excel_lossless
    (read_excel : Bytes -> option workbook) (summary_report : string) (d : Snapshot) :
  stores_losslessly pd_ExcelWriter to_excel pd_DataFrame getvalue read_excel
    summary_report d ->
  exists bytes,
    export_report_to_excel pd_ExcelWriter to_excel pd_DataFrame getvalue summary_report d
    = (inr bytes, d)
    /\ read_excel bytes
       = Some (map (fun f => sheet_of (fst f) (snd f)) (exported_frames summary_report d)).
Proof.
  intros (holds & H0 & Hstep & Hp & Hw & Hend).
  unfold export_report_to_excel.
  destruct (Hstep _ _ _ _ (or_introl eq_refl) H0) as (w1 & E1 & H1).
  rewrite E1. cbn [and_then].
  destruct (Hstep _ _ _ _ (or_intror (or_introl eq_refl)) H1) as (w2 & E2 & H2).
  rewrite E2. cbn [and_then].
  destruct (Hstep _ _ _ _ (or_intror (or_intror (or_introl eq_refl))) H2)
    as (w3 & E3 & H3).
  rewrite E3. cbn [and_then].
  destruct (Hstep _ _ _ _ (or_intror (or_intror (or_intror (or_introl eq_refl)))) H3)
    as (w4 & E4 & H4).
  rewrite E4. cbn [and_then].
  rewrite Hp. cbn [and_then].
  destruct (Hstep _ _ _ _
              (or_intror (or_intror (or_intror (or_intror (or_introl eq_refl))))) H4)
    as (w5 & E5 & H5).
  rewrite E5. cbn [and_then].
  rewrite Hw. cbn [and_then].
  destruct (Hstep _ _ _ _
              (or_intror (or_intror (or_intror (or_intror (or_intror (or_introl eq_refl))))))
              H5)
    as (w6 & E6 & H6).
  rewrite E6. cbn [and_then].
  destruct (Hend _ _ H6) as (bytes & E7 & R).
  exists bytes. rewrite E7. split; [reflexivity | exact R].
Qed.

End Workbook.




(* ================================================================== *)
(** * Further properties of the code *)

(** ** The exponent and the mantissa of a rounded quotient *)

Section RoundingBounds.

(** [ilog2_ratio n d] is the [e] with [2^e <= n / d < 2^(e+1)]. *)
Lemma ilog2_ratio_nonneg (n d : Z) :
  0 < d -> d <= n ->
  0 <= ilog2_ratio n d
  /\ d * 2 ^ ilog2_ratio n d <= n < d * 2 ^ (ilog2_ratio n d + 1).
Proof.
  intros Hd Hn. unfold ilog2_ratio.
  destruct (Z.leb_spec d n) as [_|]; [|lia].
  assert (Hq : 0 < n / d) by (apply Z.div_str_pos; lia).
  pose proof (Z.log2_spec (n / d) Hq) as [L U].
  pose proof (Z.log2_nonneg (n / d)) as H0.
  pose proof (Z.mul_div_le n d Hd) as M1.
  pose proof (Z.mul_succ_div_gt n d Hd) as M2.
  replace (Z.succ (Z.log2 (n / d))) with (Z.log2 (n / d) + 1) in U by lia.
  split; [assumption|]. split; nia.
Qed.

Lemma ilog2_ratio_neg (n d : Z) :
  0 < n -> n < d ->
  ilog2_ratio n d < 0
  /\ d <= n * 2 ^ (- ilog2_ratio n d) /\ n * 2 ^ (- ilog2_ratio n d - 1) < d.
Proof.
  intros Hn Hd. unfold ilog2_ratio.
  destruct (Z.leb_spec d n) as [|_]; [lia|].
  set (c := - (- d / n)).
  assert (Hdiv : - d = n * (- d / n) + (- d) mod n) by (apply Z.div_mod; lia).
  pose proof (Z.mod_pos_bound (- d) n Hn) as Hr.
  assert (Hc1 : d <= n * c) by (unfold c; lia).
  assert (Hc2 : n * (c - 1) < d) by (unfold c; lia).
  assert (Hc : 1 < c) by nia.
  pose proof (Z.log2_up_spec c Hc) as [L U].
  pose proof (Z.log2_up_pos c Hc) as Hpos.
  replace (Z.pred (Z.log2_up c)) with (Z.log2_up c - 1) in L by lia.
  rewrite Z.opp_involutive.
  split; [lia|]. split; nia.
Qed.

Lemma round_half_even_lower (N D K : Z) :
  0 < D -> K * D <= N -> K <= round_half_even N D.
Proof.
  intros HD H. unfold round_half_even.
  assert (K <= N / D) by (apply Z.div_le_lower_bound; lia).
  destruct (2 * (N mod D) ?= D); [destruct (Z.even (N / D))| |]; lia.
Qed.

Lemma round_half_even_upper (N D K : Z) :
  0 < D -> N < K * D -> round_half_even N D <= K.
Proof.
  intros HD H. unfold round_half_even.
  assert (N / D < K) by (apply Z.div_lt_upper_bound; lia).
  destruct (2 * (N mod D) ?= D); [destruct (Z.even (N / D))| |]; lia.
Qed.

(** When the rounded quotient exceeds an integer [k]. *)
Lemma round_half_even_gt (N D k : Z) :
  0 < D ->
  (k < round_half_even N D
   <-> (2 * k + 1) * D < 2 * N \/ ((2 * k + 1) * D = 2 * N /\ Z.odd k = true)).
Proof.
  intros HD. unfold round_half_even.
  pose proof (Z.div_mod N D ltac:(lia)) as E.
  pose proof (Z.mod_pos_bound N D HD) as R.
  set (q := N / D) in *. set (r := N mod D) in *.
  destruct (Z.compare_spec (2 * r) D) as [C|C|C].
  - destruct (Z.even q) eqn:Ev.
    + split; [intros H; left; nia|].
      intros [H|[H Ho]]; [nia|].
      assert (k = q) by nia. subst k.
      rewrite <- Z.negb_even, Ev in Ho. discriminate.
    + split.
      * intros H. destruct (Z.eq_dec k q) as [->|].
        -- right. split; [nia|]. now rewrite <- Z.negb_even, Ev.
        -- left. nia.
      * intros [H|[H _]]; nia.
  - split; [intros H; left; nia | intros [H|[H _]]; nia].
  - split; [intros H; left; nia | intros [H|[H _]]; nia].
Qed.

End RoundingBounds.

Section QuotientRange.

Lemma pow2_split (a b : Z) : 0 <= a -> 0 <= b -> 2 ^ (a + b) = 2 ^ a * 2 ^ b.
Proof. intros. now apply Z.pow_add_r. Qed.

Lemma pow2_pos (a : Z) : 0 <= a -> 0 < 2 ^ a.
Proof. intros. now apply Z.pow_pos_nonneg. Qed.

(** In the normal range the scaled quotient has at least 53 bits. *)
Lemma scaled_lower (n d : Z) :
  0 < n -> 0 < d -> -1022 <= ilog2_ratio n d ->
  2 ^ 52 * (d * 2 ^ Z.max 0 (ilog2_ratio n d - 52))
  <= n * 2 ^ Z.max 0 (- (ilog2_ratio n d - 52)).
Proof.
  intros Hn Hd He.
  destruct (Z.le_gt_cases d n) as [Hdn|Hdn].
  - destruct (ilog2_ratio_nonneg n d Hd Hdn) as (H0 & L & _).
    set (e := ilog2_ratio n d) in *.
    destruct (Z.le_gt_cases 52 e) as [H52|H52].
    + rewrite Z.max_r, Z.max_l by lia.
      replace e with (52 + (e - 52)) in L by ring.
      rewrite pow2_split in L by lia.
      change (2 ^ 0) with 1. nia.
    + rewrite Z.max_l, Z.max_r by lia.
      replace (- (e - 52)) with (52 - e) by ring.
      change (2 ^ 0) with 1.
      assert (E : 2 ^ 52 = 2 ^ e * 2 ^ (52 - e)).
      { rewrite <- pow2_split by lia. f_equal. ring. }
      pose proof (pow2_pos (52 - e) ltac:(lia)).
      rewrite E. nia.
  - destruct (ilog2_ratio_neg n d Hn Hdn) as (H0 & L & _).
    set (e := ilog2_ratio n d) in *.
    rewrite Z.max_l, Z.max_r by lia.
    replace (- (e - 52)) with (52 + - e) by ring.
    rewrite pow2_split by lia.
    change (2 ^ 0) with 1. nia.
Qed.

Lemma ilog2_ratio_upper (n d : Z) :
  0 < n -> 0 < d -> n < 2 ^ 1023 * d -> ilog2_ratio n d <= 1022.
Proof.
  intros Hn Hd H.
  destruct (Z.le_gt_cases d n) as [Hdn|Hdn].
  - destruct (ilog2_ratio_nonneg n d Hd Hdn) as (H0 & L & _).
    set (e := ilog2_ratio n d) in *.
    assert (2 ^ e < 2 ^ 1023) by nia.
    apply Z.pow_lt_mono_r_iff in H1; lia.
  - destruct (ilog2_ratio_neg n d Hn Hdn) as (H0 & _). lia.
Qed.

Lemma ilog2_ratio_lower (n d : Z) :
  0 < n -> 0 < d -> 2 ^ 1024 * d <= n -> 1024 <= ilog2_ratio n d.
Proof.
  intros Hn Hd H.
  assert (Hdn : d <= n) by nia.
  destruct (ilog2_ratio_nonneg n d Hd Hdn) as (H0 & _ & U).
  set (e := ilog2_ratio n d) in *.
  assert (2 ^ 1024 < 2 ^ (e + 1)) by nia.
  apply Z.pow_lt_mono_r_iff in H1; lia.
Qed.

(** A quotient below [2^1023] in magnitude is representable. *)
Lemma round_ratio_returns (s : bool) (n d : Z) :
  0 < n -> 0 < d -> n < 2 ^ 1023 * d -> exists f, round_ratio s n d = Some f.
Proof.
  intros Hn Hd H.
  pose proof (ilog2_ratio_upper n d Hn Hd H) as He.
  unfold round_ratio.
  set (ex := Z.max (ilog2_ratio n d - 52) (-1074)).
  assert (Hex : ex <= 970) by (unfold ex; lia).
  destruct (_ =? 2 ^ 53).
  - change (2 ^ 52) with 4503599627370496.
    destruct (Z.leb_spec (ex + 1) 971); [eexists; reflexivity | lia].
  - destruct (round_half_even _ _); try (eexists; reflexivity).
    destruct (Z.leb_spec ex 971); [eexists; reflexivity | lia].
Qed.

(** A quotient of [2^1024] or more is not. *)
Lemma round_ratio_overflow (s : bool) (n d : Z) :
  0 < n -> 0 < d -> 2 ^ 1024 * d <= n -> round_ratio s n d = None.
Proof.
  intros Hn Hd H.
  pose proof (ilog2_ratio_lower n d Hn Hd H) as He.
  pose proof (scaled_lower n d Hn Hd ltac:(lia)) as Hm.
  apply round_half_even_lower in Hm;
    [|apply Z.mul_pos_pos; [assumption | apply pow2_pos; lia]].
  unfold round_ratio.
  rewrite (Z.max_l (ilog2_ratio n d - 52) (-1074)) by lia.
  set (m := round_half_even _ _) in *.
  set (ex := ilog2_ratio n d - 52).
  assert (Hex : 972 <= ex) by (unfold ex; lia).
  destruct (m =? 2 ^ 53).
  - change (2 ^ 52) with 4503599627370496.
    destruct (Z.leb_spec (ex + 1) 971); [lia | reflexivity].
  - destruct m as [|p|p]; try lia.
    destruct (Z.leb_spec ex 971); [lia | reflexivity].
Qed.

Lemma long_true_divide_returns (a b : Z) :
  b <> 0 -> Z.abs a < 2 ^ 1023 * Z.abs b -> exists r, long_true_divide a b = inr r.
Proof.
  intros Hb H. unfold long_true_divide.
  destruct (Z.eqb_spec b 0) as [|_]; [contradiction|].
  destruct (Z.eqb_spec a 0) as [|Ha]; [eexists; reflexivity|].
  destruct (round_ratio_returns (xorb (a <? 0) (b <? 0)) (Z.abs a) (Z.abs b))
    as (f & ->); try lia.
  eexists; reflexivity.
Qed.

Lemma long_true_divide_overflow (a b : Z) :
  b <> 0 -> 2 ^ 1024 * Z.abs b <= Z.abs a -> long_true_divide a b = inl OverflowError.
Proof.
  intros Hb H. unfold long_true_divide.
  destruct (Z.eqb_spec b 0) as [|_]; [contradiction|].
  destruct (Z.eqb_spec a 0) as [->|Ha]; [lia|].
  rewrite round_ratio_overflow by lia. reflexivity.
Qed.

End QuotientRange.

(** ** The 0.3 threshold on realistic counts *)

Section Threshold.

Lemma lit_0_3_value : lit_0_3 = S754_finite false 5404319552844595 (-54).
Proof. vm_compute. reflexivity. Qed.

Lemma fltb_lit_finite (m : positive) (ex : Z) :
  fltb lit_0_3 (S754_finite false m ex) = true
  <-> -54 < ex \/ (ex = -54 /\ 5404319552844595 < Zpos m).
Proof.
  rewrite lit_0_3_value. unfold fltb, SFltb, SFcompare.
  destruct (Z.compare_spec (-54) ex) as [E|E|E].
  - change (Pos.compare_cont Eq 5404319552844595 m)
      with (Pos.compare 5404319552844595 m).
    rewrite Pos2Z.inj_compare.
    destruct (Z.compare_spec 5404319552844595 (Z.pos m)) as [P|P|P].
    + split; [discriminate | lia].
    + split; [intros _; lia | reflexivity].
    + split; [discriminate | lia].
  - split; [intros _; lia | reflexivity].
  - split; [discriminate | lia].
Qed.

Lemma fltb_lit_zero (s : bool) : fltb lit_0_3 (S754_zero s) = false.
Proof. rewrite lit_0_3_value. reflexivity. Qed.

(** For a quotient of positive integers, the float comparison with
    [0.3] is the exact comparison of the fraction with 3/10 as long as
    the denominator stays below [2^55 / 6]. *)
Lemma round_ratio_threshold (n d : Z) :
  0 < n -> 0 < d -> n < 2 ^ 1023 * d -> 6 * d <= 2 ^ 55 ->
  exists r, round_ratio false n d = Some r
            /\ (fltb lit_0_3 r = true <-> 3 * d < 10 * n).
Proof.
  intros Hn Hd Hbig Hsmall.
  pose proof (ilog2_ratio_upper n d Hn Hd Hbig) as Hup.
  assert (Regime :
            (-1 <= ilog2_ratio n d /\ d <= 2 * n)
            \/ (ilog2_ratio n d = -2 /\ d <= 4 * n)
            \/ (ilog2_ratio n d <= -3 /\ 4 * n < d)).
  { destruct (Z.le_gt_cases d n) as [Hdn|Hdn].
    - destruct (ilog2_ratio_nonneg n d Hd Hdn) as (H0 & _). left. lia.
    - destruct (ilog2_ratio_neg n d Hn Hdn) as (H0 & L & U).
      set (e := ilog2_ratio n d) in *.
      destruct (Z.eq_dec e (-1)) as [E|E1]; [|destruct (Z.eq_dec e (-2)) as [E|E2]].
      + left. rewrite E in L. change (2 ^ (- -1)) with 2 in L. lia.
      + right; left. rewrite E in L. change (2 ^ (- -2)) with 4 in L. lia.
      + right; right. split; [lia|].
        assert (2 ^ 2 <= 2 ^ (- e - 1)) by (apply Z.pow_le_mono_r; lia).
        change (2 ^ 2) with 4 in *. nia. }
  destruct Regime as [(He & Hr)|[(He & Hr)|(He & Hr)]].
  - (* at least one half *)
    pose proof (scaled_lower n d Hn Hd ltac:(lia)) as Hm.
    apply round_half_even_lower in Hm;
      [|apply Z.mul_pos_pos; [assumption | apply pow2_pos; lia]].
    unfold round_ratio.
    rewrite (Z.max_l (ilog2_ratio n d - 52) (-1074)) by lia.
    set (m := round_half_even _ _) in *.
    set (ex := ilog2_ratio n d - 52).
    assert (Hex : -53 <= ex <= 970) by (unfold ex; lia).
    destruct (m =? 2 ^ 53).
    + change (2 ^ 52) with 4503599627370496.
      destruct (Z.leb_spec (ex + 1) 971); [|lia].
      eexists. split; [reflexivity|].
      rewrite fltb_lit_finite. split; intros _; lia.
    + destruct m as [|p|p]; try lia.
      destruct (Z.leb_spec ex 971); [|lia].
      eexists. split; [reflexivity|].
      rewrite fltb_lit_finite. split; intros _; lia.
  - (* between a quarter and a half: the binade of 0.3 *)
    pose proof (scaled_lower n d Hn Hd ltac:(lia)) as Hm.
    unfold round_ratio. rewrite He in *.
    change (Z.max (-2 - 52) (-1074)) with (-54).
    change (Z.max 0 (- (-2 - 52))) with 54 in *.
    change (Z.max 0 (- -54)) with 54.
    change (Z.max 0 (-54)) with 0.
    change (Z.max 0 (-2 - 52)) with 0 in *.
    change (2 ^ 0) with 1 in *. rewrite Z.mul_1_r in *.
    pose proof (round_half_even_lower _ _ _ Hd Hm) as Hlow.
    pose proof (round_half_even_gt (n * 2 ^ 54) d 5404319552844595 Hd) as Hgt.
    change (Z.odd 5404319552844595) with true in Hgt.
    set (m := round_half_even (n * 2 ^ 54) d) in *.
    assert (Hiff : 5404319552844595 < m <-> 3 * d < 10 * n).
    { rewrite Hgt. change (2 ^ 54) with 18014398509481984.
      change (2 ^ 55) with 36028797018963968 in Hsmall. lia. }
    destruct (Z.eqb_spec m (2 ^ 53)) as [E|E].
    + change (2 ^ 52) with 4503599627370496.
      change (-54 + 1 <=? 971) with true. cbv iota.
      eexists. split; [reflexivity|].
      rewrite fltb_lit_finite, <- Hiff, E.
      change (2 ^ 53) with 9007199254740992. split; intros _; lia.
    + destruct m as [|p|p]; try lia.
      eexists. split; [reflexivity|].
      rewrite fltb_lit_finite, <- Hiff. lia.
  - (* below a quarter *)
    unfold round_ratio.
    set (ex := Z.max (ilog2_ratio n d - 52) (-1074)).
    assert (Hex : ex <= -55) by (unfold ex; lia).
    destruct (_ =? 2 ^ 53).
    + change (2 ^ 52) with 4503599627370496.
      destruct (Z.leb_spec (ex + 1) 971); [|lia].
      eexists. split; [reflexivity|].
      rewrite fltb_lit_finite. lia.
    + destruct (round_half_even _ _) as [|p|p].
      * eexists. split; [reflexivity|]. rewrite fltb_lit_zero. split; [discriminate | lia].
      * destruct (Z.leb_spec ex 971); [|lia].
        eexists. split; [reflexivity|].
        rewrite fltb_lit_finite. lia.
      * eexists. split; [reflexivity|]. rewrite fltb_lit_zero. split; [discriminate | lia].
Qed.

Lemma long_true_divide_threshold (p q : Z) :
  0 <= p < 2 ^ 1023 -> 0 < q -> 6 * q <= 2 ^ 55 ->
  exists r, long_true_divide p q = inr r
            /\ (fltb lit_0_3 r = true <-> 3 * q < 10 * p).
Proof.
  intros Hp Hq Hs. unfold long_true_divide.
  destruct (Z.eqb_spec q 0) as [|_]; [lia|].
  destruct (Z.eqb_spec p 0) as [->|Hp0].
  - eexists. split; [reflexivity|].
    rewrite fltb_lit_zero. split; [discriminate | lia].
  - destruct (Z.ltb_spec p 0); [lia|]. destruct (Z.ltb_spec q 0); [lia|].
    rewrite !Z.abs_eq by lia. cbn [xorb].
    assert (Hbig : p < 2 ^ 1023 * q).
    { assert (2 ^ 1023 * 1 <= 2 ^ 1023 * q)
        by (apply Z.mul_le_mono_nonneg_l; [apply Z.pow_nonneg|]; lia).
      lia. }
    destruct (round_ratio_threshold p q) as (r & -> & Hr); try lia.
    exists r. split; [reflexivity | exact Hr].
Qed.

End Threshold.

(** ** What the classifier reads, and how much it can emit *)

Section ClassifierFrame.

Lemma filter_map_comm {A B : Type} (f : A -> B) (p : B -> bool) (l : list A) :
  filter p (map f l) = map f (filter (fun a => p (f a)) l).
Proof.
  induction l as [|a l IH]; [reflexivity|].
  cbn [map filter]. destruct (p (f a)); cbn [map]; now rewrite IH.
Qed.

Lemma shortfall_rule_reads (prod_df : list ProductionRecord) :
  shortfall_rule prod_df
  = (let total := series_sum (map Variance prod_df) in
     if total <? -3000 then [shortfall_msg total] else []).
Proof. reflexivity. Qed.

Lemma feeding_count_reads (prod_df : list ProductionRecord) :
  feeding_count prod_df
  = len (filter (str_contains "FEEDING ISSUE") (map Reason prod_df)).
Proof.
  unfold feeding_count, len. now rewrite filter_map_comm, length_map.
Qed.

Lemma critical_count_reads (mrp_df : list MrpOrder) :
  critical_count mrp_df
  = len (filter (fun s => String.eqb s "Critical") (map Status mrp_df)).
Proof.
  unfold critical_count, len. now rewrite filter_map_comm, length_map.
Qed.

Lemma capacity_critical_reads (cap_df : list CapacityRecord) :
  capacity_critical cap_df
  = map (fun du => "⚠️ CRITICAL: " ++ fst du ++ " capacity at " ++ str_of_Z (snd du) ++ "%")
        (filter (fun du => snd du <? 20)
                (map (fun row => (Department row, Utilization row)) cap_df)).
Proof.
  unfold capacity_critical. rewrite filter_map_comm, map_map. reflexivity.
Qed.

Lemma capacity_high_reads (cap_df : list CapacityRecord) :
  capacity_high cap_df
  = map (fun du => "🔶 HIGH: " ++ fst du ++ " underutilized at " ++ str_of_Z (snd du) ++ "%")
        (filter (fun du => (20 <=? snd du) && (snd du <? 40))
                (map (fun row => (Department row, Utilization row)) cap_df)).
Proof.
  unfold capacity_high. rewrite filter_map_comm, map_map. reflexivity.
Qed.

Lemma result_triple_inv {A B C : Type} (a a' : A) (b b' : B) (c c' : C) :
  @inr exn (A * B * C) (a, b, c) = inr (a', b', c') -> a = a' /\ b = b' /\ c = c'.
Proof. intros H. injection H. auto. Qed.

Lemma rule_lengths (d : Snapshot) (r : float) :
  (List.length (shortfall_rule (production d)) <= 1)%nat
  /\ (List.length (feeding_rule (production d)) <= 1)%nat
  /\ (List.length (mrp_rule (mrp d)) <= 1)%nat
  /\ (List.length (pending_rule r) <= 1)%nat.
Proof.
  unfold shortfall_rule, feeding_rule, mrp_rule, pending_rule.
  repeat split;
    match goal with |- context [if ?b then _ else _] => destruct b end;
    simpl; lia.
Qed.

End ClassifierFrame.

(** X1. The classifier's outcome is a function of the variance and
    reason columns, the department and utilization columns, the status
    column and the pending and issued counts; no other value of the
    snapshot (dates, planned and actual quantities, capacities, order
    numbers and flags, amounts, received count, imports, warehouse)
    influences it. *)
Theorem classifier_reads_only (d1 d2 : Snapshot) :
  classifier_inputs d1 = classifier_inputs d2 ->
  fst (analyze_critical_issues d1) = fst (analyze_critical_issues d2).
Proof.
  unfold classifier_inputs. intros E.
  injection E as EV ER EC ES EP EI.
  rewrite !analyze_critical_issues_eq. cbn [fst].
  unfold pending_ratio, feeding_rule, mrp_rule.
  rewrite !shortfall_rule_reads, !feeding_count_reads, !critical_count_reads,
    !capacity_critical_reads, !capacity_high_reads.
  rewrite EV, ER, EC, ES, EP, EI. reflexivity.
Qed.

Lemma classifier_reads_only_witness :
  fst (analyze_critical_issues parse_supply_chain_data)
  = fst (analyze_critical_issues relabelled_snapshot).
Proof.
  apply classifier_reads_only. reflexivity.
Defined.

(** X2. Whatever the snapshot, a returned result holds at most two
    production issues plus one critical issue per capacity record, at
    most one high issue per capacity record plus one MRP issue, at most
    one medium issue, and no capacity record counts twice. *)
Theorem classifier_issue_bounds (d : Snapshot) (critical high medium : list string) :
  fst (analyze_critical_issues d) = inr (critical, high, medium) ->
  (List.length critical <= 2 + List.length (capacity d))%nat
  /\ (List.length high <= List.length (capacity d) + 1)%nat
  /\ (List.length medium <= 1)%nat
  /\ (List.length critical + List.length high <= 3 + List.length (capacity d))%nat.
Proof.
  rewrite analyze_critical_issues_eq. cbn [fst].
  destruct (pending_ratio d) as [e|r]; [discriminate|].
  intros E. apply result_triple_inv in E as (<- & <- & <-).
  destruct (rule_lengths d r) as (H1 & H2 & H3 & H4).
  pose proof (capacity_issue_count (capacity d)) as H5.
  rewrite !length_app. lia.
Qed.

Lemma classifier_issue_bounds_witness :
  (4 <= 2 + List.length (capacity parse_supply_chain_data))%nat
  /\ (1 <= List.length (capacity parse_supply_chain_data) + 1)%nat
  /\ (1 <= 1)%nat
  /\ (4 + 1 <= 3 + List.length (capacity parse_supply_chain_data))%nat.
Proof.
  exact (classifier_issue_bounds parse_supply_chain_data
           [ "🚨 CRITICAL: Production shortfall of 5,241 units";
             "🔥 CRITICAL: 3 days of feeding issues from cutting";
             "⚠️ CRITICAL: Stitching capacity at 14%";
             "⚠️ CRITICAL: Lasting capacity at 0%" ]
           [ "📋 HIGH: 2 orders with material unavailability" ]
           [ "📦 MEDIUM: 39.1% of POs pending" ]
           eq_refl).
Defined.

(** ** The MRP rule *)

Section MrpRule.

Lemma not_mrp_capacity (cap_df : list CapacityRecord) (s : string) :
  In s (capacity_high cap_df) -> is_mrp s = false.
Proof.
  unfold capacity_high. intros H.
  apply in_map_iff in H as (row & <- & _). reflexivity.
Qed.

Lemma critical_count_zero (mrp_df : list MrpOrder) :
  critical_count mrp_df = 0 <-> Forall (fun o => Status o <> "Critical") mrp_df.
Proof.
  unfold critical_count, len.
  induction mrp_df as [|o l IH].
  - split; [constructor | reflexivity].
  - cbn [filter]. destruct (String.eqb_spec (Status o) "Critical") as [E|E].
    + cbn [List.length]. split; [lia|].
      intros H. inversion H; subst. contradiction.
    + rewrite IH. split.
      * intros H. constructor; assumption.
      * intros H. now inversion H.
Qed.

Lemma critical_count_nonneg (mrp_df : list MrpOrder) : 0 <= critical_count mrp_df.
Proof. unfold critical_count, len. lia. Qed.

End MrpRule.

(** X3. However many orders have status "Critical", the classifier
    emits one MRP issue for all of them, at the end of the high list and
    citing their number; with no such order it emits none. *)
Theorem mrp_single_issue (d : Snapshot) (critical high medium : list string) :
  fst (analyze_critical_issues d) = inr (critical, high, medium) ->
  let n := len (filter (fun o => String.eqb (Status o) "Critical") (mrp d)) in
  (Forall (fun o => Status o <> "Critical") (mrp d)
   /\ forall s, In s high -> is_mrp s = false)
  \/ (0 < n
      /\ exists others,
          high = (others ++ [("📋 HIGH: " ++ str_of_Z n
                                ++ " orders with material unavailability")%string])%list
          /\ forall s, In s others -> is_mrp s = false).
Proof.
  intros E n. change n with (critical_count (mrp d)). clear n.
  rewrite analyze_critical_issues_eq in E. cbn [fst] in E.
  destruct (pending_ratio d) as [e|r]; [discriminate|].
  apply result_triple_inv in E as (_ & <- & _).
  unfold mrp_rule.
  destruct (Z.ltb_spec 0 (critical_count (mrp d))) as [Hn|Hn].
  - right. split; [assumption|].
    exists (capacity_high (capacity d)). split; [reflexivity|].
    apply not_mrp_capacity.
  - left. split.
    + apply critical_count_zero. pose proof (critical_count_nonneg (mrp d)). lia.
    + intros s Hs. rewrite app_nil_r in Hs. now apply not_mrp_capacity in Hs.
Qed.

Lemma mrp_single_issue_witness :
  (Forall (fun o => Status o <> "Critical") (mrp parse_supply_chain_data)
   /\ forall s, In s [ "📋 HIGH: 2 orders with material unavailability" ] -> is_mrp s = false)
  \/ (0 < len (filter (fun o => String.eqb (Status o) "Critical")
                      (mrp parse_supply_chain_data))
      /\ exists others,
          [ "📋 HIGH: 2 orders with material unavailability" ]
          = (others
               ++ [("📋 HIGH: "
                      ++ str_of_Z (len (filter (fun o => String.eqb (Status o) "Critical")
                                               (mrp parse_supply_chain_data)))
                      ++ " orders with material unavailability")%string])%list
          /\ forall s, In s others -> is_mrp s = false).
Proof.
  exact (mrp_single_issue parse_supply_chain_data
           [ "🚨 CRITICAL: Production shortfall of 5,241 units";
             "🔥 CRITICAL: 3 days of feeding issues from cutting";
             "⚠️ CRITICAL: Stitching capacity at 14%";
             "⚠️ CRITICAL: Lasting capacity at 0%" ]
           [ "📋 HIGH: 2 orders with material unavailability" ]
           [ "📦 MEDIUM: 39.1% of POs pending" ]
           eq_refl).
Defined.

(** ** When the classifier returns *)

(** X4. With a non-zero issued count the classifier returns its three
    lists whenever the pending count is below [2^1023] times the issued
    count in magnitude, and raises [OverflowError] (Python's "integer
    division result too large for a float") whenever it is [2^1024]
    times the issued count or more. The snapshot is left as received in
    both cases. *)
Theorem classifier_returns_or_overflows (d : Snapshot) :
  let pending := Count (PO_Pending (procurement d)) in
  let issued := Count (PO_Issued (procurement d)) in
  (issued <> 0 -> Z.abs pending < 2 ^ 1023 * Z.abs issued ->
   exists critical high medium,
     analyze_critical_issues d = (inr (critical, high, medium), d))
  /\ (issued <> 0 -> 2 ^ 1024 * Z.abs issued <= Z.abs pending ->
      analyze_critical_issues d = (inl OverflowError, d)).
Proof.
  intros pending issued. subst pending issued.
  split; intros Hi H; rewrite analyze_critical_issues_eq; unfold pending_ratio.
  - destruct (long_true_divide_returns _ _ Hi H) as (r & ->).
    do 3 eexists. reflexivity.
  - now rewrite (long_true_divide_overflow _ _ Hi H).
Qed.

Lemma classifier_returns_or_overflows_witness :
  (exists critical high medium,
      analyze_critical_issues parse_supply_chain_data
      = (inr (critical, high, medium), parse_supply_chain_data))
  /\ analyze_critical_issues (with_procurement_counts 1 1 (2 ^ 1024) parse_supply_chain_data)
     = (inl OverflowError, with_procurement_counts 1 1 (2 ^ 1024) parse_supply_chain_data).
Proof.
  split.
  - apply (proj1 (classifier_returns_or_overflows parse_supply_chain_data)).
    + simpl. lia.
    + vm_compute. reflexivity.
  - apply (proj2 (classifier_returns_or_overflows
                    (with_procurement_counts 1 1 (2 ^ 1024) parse_supply_chain_data))).
    + simpl. lia.
    + vm_compute. discriminate.
Defined.

(** ** The medium rule on realistic counts *)

(** X5. For counts with [0 <= pending < 2^1023] and
    [0 < issued <= 2^55 / 6] the float comparison [pending_ratio > 0.3]
    is exact: the classifier returns, and its medium list is the single
    pending issue when [pending / issued > 3/10] as fractions and is
    empty otherwise. *)
Theorem medium_issue_exact (d : Snapshot) :
  let pending := Count (PO_Pending (procurement d)) in
  let issued := Count (PO_Issued (procurement d)) in
  0 <= pending < 2 ^ 1023 -> 0 < issued -> 6 * issued <= 2 ^ 55 ->
  exists critical high ratio,
    pending_ratio d = inr ratio
    /\ analyze_critical_issues d
       = (inr (critical, high,
               if 3 * issued <? 10 * pending
               then [("📦 MEDIUM: " ++ format_pct1 ratio ++ " of POs pending")%string]
               else []), d).
Proof.
  intros pending issued Hp Hi Hs. subst pending issued.
  destruct (long_true_divide_threshold _ _ Hp Hi Hs) as (r & E & Hr).
  rewrite analyze_critical_issues_eq. unfold pending_ratio. rewrite E.
  do 2 eexists. exists r. split; [reflexivity|].
  unfold pending_rule, pending_msg.
  destruct (Z.ltb_spec (3 * Count (PO_Issued (procurement d)))
                       (10 * Count (PO_Pending (procurement d)))) as [H|H].
  - rewrite (proj2 Hr H). reflexivity.
  - destruct (fltb lit_0_3 r); [|reflexivity].
    pose proof (proj1 Hr eq_refl). lia.
Qed.

Lemma medium_issue_exact_witness :
  exists critical high ratio,
    pending_ratio (with_procurement_counts 1000 699 301 parse_supply_chain_data) = inr ratio
    /\ analyze_critical_issues (with_procurement_counts 1000 699 301 parse_supply_chain_data)
       = (inr (critical, high,
               [("📦 MEDIUM: " ++ format_pct1 ratio ++ " of POs pending")%string]),
          with_procurement_counts 1000 699 301 parse_supply_chain_data).
Proof.
  apply (medium_issue_exact (with_procurement_counts 1000 699 301 parse_supply_chain_data)).
  - simpl. split; [lia | reflexivity].
  - reflexivity.
  - vm_compute. discriminate.
Defined.

(** Beyond that range the float comparison can miss a ratio above 3/10:
    here [10 * pending > 3 * issued], yet the quotient rounds to the
    float of [0.3] and no issue is emitted. *)
Example medium_issue_inexact_for_huge_counts :
  3 * (10 * 2 ^ 60) < 10 * (3 * 2 ^ 60 + 1)
  /\ exists critical high,
      analyze_critical_issues
        (with_procurement_counts (10 * 2 ^ 60) 0 (3 * 2 ^ 60 + 1) parse_supply_chain_data)
      = (inr (critical, high, []),
         with_procurement_counts (10 * 2 ^ 60) 0 (3 * 2 ^ 60 + 1) parse_supply_chain_data).
Proof.
  split; [reflexivity|]. do 2 eexists. vm_compute. reflexivity.
Qed.

(** ** When nothing is reported *)

Section AllClear.

Lemma capacity_silent (cap_df : list CapacityRecord) :
  capacity_critical cap_df = [] /\ capacity_high cap_df = []
  <-> Forall (fun row => 40 <= Utilization row) cap_df.
Proof.
  unfold capacity_critical, capacity_high.
  induction cap_df as [|row rows IH].
  - split; [constructor | split; reflexivity].
  - cbn [filter].
    destruct (Z.ltb_spec (Utilization row) 20) as [H20|H20].
    + cbn [map]. split; [intros [E _]; discriminate|].
      intros H. inversion H; subst. lia.
    + destruct (Z.leb_spec 20 (Utilization row)) as [_|]; [|lia].
      destruct (Z.ltb_spec (Utilization row) 40) as [H40|H40]; cbn [andb map].
      * split; [intros [_ E]; discriminate|].
        intros H. inversion H; subst. lia.
      * rewrite IH. split.
        -- intros H. constructor; assumption.
        -- intros H. now inversion H.
Qed.

Lemma app_nil_iff {A : Type} (l1 l2 : list A) :
  (l1 ++ l2)%list = [] <-> l1 = [] /\ l2 = [].
Proof.
  split.
  - apply app_eq_nil.
  - intros [-> ->]. reflexivity.
Qed.

End AllClear.

(** X6. For counts as in X5, production and MRP tables with rows and
    variances whose exact sum fits 64 bits, the classifier returns
    three empty lists (the case in which the dashboard shows "All
    Systems Operating Normally") exactly when the summed variance is
    not below -3000, fewer than 3 reasons contain "FEEDING ISSUE",
    every utilization is at least 40, no order has status "Critical"
    and at most 3/10 of the issued orders are pending. *)
Theorem all_clear_iff (d : Snapshot) :
  let pending := Count (PO_Pending (procurement d)) in
  let issued := Count (PO_Issued (procurement d)) in
  let total := Zsum (map Variance (production d)) in
  production d <> [] -> mrp d <> [] ->
  - 2 ^ 63 <= total < 2 ^ 63 ->
  0 <= pending < 2 ^ 1023 -> 0 < issued -> 6 * issued <= 2 ^ 55 ->
  (analyze_critical_issues d = (inr ([], [], []), d)
   <-> -3000 <= total
       /\ len (filter (fun r => str_contains "FEEDING ISSUE" (Reason r)) (production d)) < 3
       /\ Forall (fun row => 40 <= Utilization row) (capacity d)
       /\ Forall (fun o => Status o <> "Critical") (mrp d)
       /\ 10 * pending <= 3 * issued).
Proof.
  intros pending issued total _ _ Ht Hp Hi Hs. subst pending issued total.
  destruct (long_true_divide_threshold _ _ Hp Hi Hs) as (r & E & Hr).
  rewrite analyze_critical_issues_eq. unfold pending_ratio. rewrite E.
  rewrite <- capacity_silent, <- critical_count_zero.
  change (len (filter (fun r0 => str_contains "FEEDING ISSUE" (Reason r0)) (production d)))
    with (feeding_count (production d)).
  pose proof (critical_count_nonneg (mrp d)) as Hc.
  assert (S1 : shortfall_rule (production d) = []
               <-> -3000 <= Zsum (map Variance (production d))).
  { unfold shortfall_rule. rewrite series_sum_wrap, (wrap64_small _ Ht).
    destruct (Z.ltb_spec (Zsum (map Variance (production d))) (-3000));
      split; intros; try reflexivity; try discriminate; lia. }
  assert (S2 : feeding_rule (production d) = [] <-> feeding_count (production d) < 3).
  { unfold feeding_rule.
    destruct (Z.leb_spec 3 (feeding_count (production d)));
      split; intros; try reflexivity; try discriminate; lia. }
  assert (S3 : mrp_rule (mrp d) = [] <-> critical_count (mrp d) = 0).
  { unfold mrp_rule.
    destruct (Z.ltb_spec 0 (critical_count (mrp d)));
      split; intros; try reflexivity; try discriminate; lia. }
  assert (S4 : pending_rule r = []
               <-> 10 * Count (PO_Pending (procurement d))
                   <= 3 * Count (PO_Issued (procurement d))).
  { unfold pending_rule. destruct (fltb lit_0_3 r).
    - split; [discriminate|]. intros H. pose proof (proj1 Hr eq_refl). lia.
    - split; [|reflexivity]. intros _.
      destruct (Z.le_gt_cases (10 * Count (PO_Pending (procurement d)))
                              (3 * Count (PO_Issued (procurement d)))) as [H|H];
        [assumption|].
      assert (F : false = true) by (apply Hr; lia). discriminate. }
  rewrite <- S1, <- S2, <- S3, <- S4. split.
  - intros H. apply pair_equal_spec in H as [H _].
    apply result_triple_inv in H as (H1 & H2 & H3).
    apply app_nil_iff in H1 as [A1 H1]. apply app_nil_iff in H1 as [A2 A3].
    apply app_nil_iff in H2 as [B1 B2].
    repeat split; assumption.
  - intros (A1 & A2 & (A3 & B1) & B2 & C). now rewrite A1, A2, A3, B1, B2, C.
Qed.

Lemma all_clear_iff_witness :
  analyze_critical_issues quiet_snapshot = (inr ([], [], []), quiet_snapshot).
Proof.
  apply (all_clear_iff quiet_snapshot).
  - discriminate.
  - discriminate.
  - split; [vm_compute; discriminate | reflexivity].
  - simpl. split; [lia | reflexivity].
  - reflexivity.
  - vm_compute. discriminate.
  - split; [vm_compute; discriminate|].
    split; [reflexivity|].
    split; [repeat constructor; vm_compute; discriminate|].
    split; [repeat constructor; discriminate|].
    vm_compute. discriminate.
Defined.

(** ** The shortfall rule on exact sums *)

Section ShortfallExact.

Lemma np_abs_neg (v : Z) : - 2 ^ 63 < v < 0 -> np_abs v = - v.
Proof.
  intros H. unfold np_abs. rewrite wrap64_small; lia.
Qed.

End ShortfallExact.

(** X7. As long as the exact sum of the variances fits the int64
    column (strictly above [-2^63], below [2^63]), the classifier emits
    the shortfall issue exactly when the sum is below -3000, as the
    first critical issue, citing the absolute sum with thousands
    separators; no other critical issue is a shortfall issue. *)
Theorem shortfall_exact (d : Snapshot) :
  let total := Zsum (map Variance (production d)) in
  - 2 ^ 63 < total < 2 ^ 63 ->
  match pending_ratio d with
  | inl e => analyze_critical_issues d = (inl e, d)
  | inr _ =>
      exists rest high medium,
        analyze_critical_issues d
        = (inr (((if total <? -3000
                  then [("🚨 CRITICAL: Production shortfall of "
                           ++ format_comma (- total) ++ " units")%string]
                  else []) ++ rest)%list, high, medium), d)
        /\ forall s, In s rest -> is_shortfall s = false
  end.
Proof.
  intros total H. subst total.
  rewrite analyze_critical_issues_eq.
  destruct (pending_ratio d) as [e|r]; [reflexivity|].
  do 3 eexists. split.
  - unfold shortfall_rule, shortfall_msg.
    rewrite series_sum_wrap, wrap64_small by lia.
    destruct (Z.ltb_spec (Zsum (map Variance (production d))) (-3000)) as [L|L].
    + rewrite np_abs_neg by lia. reflexivity.
    + reflexivity.
  - intros s Hs. apply in_app_or in Hs as [Hs|Hs].
    + exact (not_shortfall_feeding _ _ Hs).
    + exact (not_shortfall_capacity _ _ Hs).
Qed.

Lemma shortfall_exact_witness :
  exists rest high medium,
    analyze_critical_issues parse_supply_chain_data
    = (inr ("🚨 CRITICAL: Production shortfall of 5,241 units" :: rest, high, medium),
       parse_supply_chain_data)
    /\ forall s, In s rest -> is_shortfall s = false.
Proof.
  apply (shortfall_exact parse_supply_chain_data).
  split; reflexivity.
Defined.

(** ** The report, section by section *)

Section ReportShape.

Variable float_repr : float -> string.

Lemma string_app_nil_r (a : string) : a ++ EmptyString = a.
Proof. induction a as [|x a IH]; simpl; [reflexivity | now rewrite IH]. Qed.

Lemma bullet_lines_bullets (report : string) (issues : list string) :
  bullet_lines report issues = report ++ bullets issues.
Proof.
  unfold bullet_lines. revert report.
  induction issues as [|issue issues IH]; intros report; cbn [fold_left bullets fold_right].
  - now rewrite string_app_nil_r.
  - rewrite IH. fold (bullets issues). now rewrite !string_app_assoc.
Qed.

(** The renderer returns exactly when the PO completion ratio is
    defined; the report is the head followed by the tail. *)
Lemma create_summary_report_eq (now : string)
    (critical_issues high_issues medium_issues : list string) (d : Snapshot) :
  create_summary_report float_repr now critical_issues high_issues medium_issues d
  = (match po_ratio d with
     | inl e => inl e
     | inr po =>
         inr (report_head now critical_issues high_issues ++ report_tail float_repr d po)
     end, d).
Proof.
  unfold create_summary_report, bind, read, lift, ret, po_ratio.
  destruct (long_true_divide _ _) as [e|po]; [reflexivity|].
  rewrite !bullet_lines_bullets.
  unfold report_head, report_tail.
  rewrite !string_app_assoc. reflexivity.
Qed.

Lemma occurs_skip (x s t : string) :
  (exists before after, t = before ++ x ++ after) ->
  exists before after, s ++ t = before ++ x ++ after.
Proof.
  intros (b & a & ->). exists (s ++ b), a. now rewrite string_app_assoc.
Qed.

Lemma occurs_here (x rest : string) :
  exists before after, x ++ rest = before ++ x ++ after.
Proof. now exists EmptyString, rest. Qed.

Lemma report_tail_recommendation (d : Snapshot) (po : float) :
  exists before after,
    report_tail float_repr d po
    = before ++ "3. **MEDIUM:** Expedite pending material orders (679, 681)" ++ after.
Proof.
  unfold report_tail.
  generalize "3. **MEDIUM:** Expedite pending material orders (679, 681)" as x.
  intros x.
  repeat first [apply occurs_here | apply occurs_skip].
Qed.

Lemma format_comma_neg (v : Z) : v < 0 -> format_comma v = "-" ++ format_comma (- v).
Proof.
  intros H. unfold format_comma.
  destruct (Z.ltb_spec v 0); [|lia]. destruct (Z.ltb_spec (- v) 0); [lia|].
  now rewrite Z.abs_opp.
Qed.

End ReportShape.



(** X9. The report is a function of the time stamp, the critical and
    high lists, the three production quantity columns, the utilization
    column, the received and issued counts, the pending bucket and the
    finished-goods total. The MRP table never reaches it: a returned
    report always recommends expediting orders 679 and 681. *)
Theorem report_reads_only (float_repr : float -> string) (now : string)
    (critical_issues high_issues medium_issues : list string) (d1 d2 : Snapshot) :
  report_inputs d1 = report_inputs d2 ->
  fst (create_summary_report float_repr now critical_issues high_issues medium_issues d1)
  = fst (create_summary_report float_repr now critical_issues high_issues medium_issues d2)
  /\ forall text,
      fst (create_summary_report float_repr now critical_issues high_issues
             medium_issues d1) = inr text ->
      exists before after,
        text = before ++ "3. **MEDIUM:** Expedite pending material orders (679, 681)"
                      ++ after.
Proof.
  unfold report_inputs. intros E.
  injection E as EA EP EV EU ER EI EB ET.
  rewrite !create_summary_report_eq. cbn [fst].
  split.
  - unfold po_ratio, report_tail, production_efficiency.
    now rewrite EA, EP, EV, EU, ER, EI, EB, ET.
  - destruct (po_ratio d1) as [e|po]; [discriminate|].
    intros text H.
    assert (Ht : text = report_head now critical_issues high_issues
                        ++ report_tail float_repr d1 po) by congruence.
    rewrite Ht. apply occurs_skip, report_tail_recommendation.
Qed.

Lemma report_reads_only_witness :
  fst (create_summary_report (fun _ => "17.93") "03-Nov-2026 09:04" [] [] []
         parse_supply_chain_data)
  = fst (create_summary_report (fun _ => "17.93") "03-Nov-2026 09:04" [] [] []
           (with_mrp [] (with_imports (imports relabelled_snapshot)
                                      parse_supply_chain_data))).
Proof.
  exact (proj1 (report_reads_only (fun _ => "17.93") "03-Nov-2026 09:04" [] [] []
                  parse_supply_chain_data
                  (with_mrp [] (with_imports (imports relabelled_snapshot)
                                             parse_supply_chain_data))
                  eq_refl)).
Defined.



Section ReportAfterClassifier.

Variable float_repr : float -> string.

Lemma occurs_here3 (x y z rest : string) :
  exists before after, x ++ y ++ z ++ rest = before ++ (x ++ y ++ z) ++ after.
Proof. exists EmptyString, rest. now rewrite !string_app_assoc. Qed.

Lemma report_head_first_issue (now issue : string) (rest high_issues : list string) :
  exists before after,
    report_head now (issue :: rest) high_issues = before ++ ("- " ++ issue ++ nl) ++ after.
Proof.
  unfold report_head. cbn [bullets fold_right]. fold (bullets rest).
  generalize "- " as dash. generalize nl as newline. intros newline dash.
  rewrite !string_app_assoc.
  repeat first [apply occurs_here3 | apply occurs_skip].
Qed.

Lemma report_tail_variance (d : Snapshot) (po : float) :
  exists before after,
    report_tail float_repr d po
    = before
        ++ ("- **Total Production Variance:** "
              ++ format_comma (series_sum (map Variance (production d))) ++ " units")
        ++ after.
Proof.
  unfold report_tail.
  generalize (format_comma (series_sum (map Variance (production d)))) as v.
  generalize "- **Total Production Variance:** " as label.
  generalize " units" as unit_text.
  intros unit_text label v.
  repeat first [apply occurs_here3 | apply occurs_skip].
Qed.

Lemma occurs_app_l (x s t : string) :
  (exists before after, s = before ++ x ++ after) ->
  exists before after, s ++ t = before ++ x ++ after.
Proof.
  intros (b & a & ->). exists b, (a ++ t). now rewrite !string_app_assoc.
Qed.

End ReportAfterClassifier.

(** X11. When the report is rendered from the classifier's own output
    and the exact variance sum lies strictly between [-2^63] and -3000,
    the first critical issue and the report agree on the figure: the
    issue cites [N], the report lists that issue as a bullet line, and
    its "Total Production Variance" line shows [-N]. *)
Theorem report_cites_same_shortfall (float_repr : float -> string) (now : string)
    (d : Snapshot) (critical high medium : list string) (text : string) :
  let total := Zsum (map Variance (production d)) in
  - 2 ^ 63 < total < -3000 ->
  fst (analyze_critical_issues d) = inr (critical, high, medium) ->
  fst (create_summary_report float_repr now critical high medium d) = inr text ->
  exists (N : string) (rest : list string),
    N = format_comma (- total)
    /\ critical = ("🚨 CRITICAL: Production shortfall of " ++ N ++ " units") :: rest
    /\ (exists before after,
           text = before
                    ++ ("- " ++ ("🚨 CRITICAL: Production shortfall of " ++ N ++ " units")
                          ++ nl)
                    ++ after)
    /\ (exists before after,
           text = before
                    ++ ("- **Total Production Variance:** " ++ ("-" ++ N) ++ " units")
                    ++ after).
Proof.
  intros total Ht Hc Hr. subst total.
  assert (Hsum : series_sum (map Variance (production d))
                 = Zsum (map Variance (production d)))
    by (rewrite series_sum_wrap; apply wrap64_small; lia).
  rewrite analyze_critical_issues_eq in Hc. cbn [fst] in Hc.
  destruct (pending_ratio d) as [e|r]; [discriminate|].
  rewrite create_summary_report_eq in Hr. cbn [fst] in Hr.
  destruct (po_ratio d) as [e|po]; [discriminate|].
  assert (Hfirst : shortfall_rule (production d)
                   = [("🚨 CRITICAL: Production shortfall of "
                         ++ format_comma (- Zsum (map Variance (production d)))
                         ++ " units")%string]).
  { unfold shortfall_rule, shortfall_msg. rewrite Hsum.
    destruct (Z.ltb_spec (Zsum (map Variance (production d))) (-3000)); [|lia].
    rewrite np_abs_neg by lia. reflexivity. }
  rewrite Hfirst in Hc. cbn [app] in Hc.
  exists (format_comma (- Zsum (map Variance (production d)))).
  exists (feeding_rule (production d) ++ capacity_critical (capacity d))%list.
  assert (Ec : critical
               = ("🚨 CRITICAL: Production shortfall of "
                    ++ format_comma (- Zsum (map Variance (production d))) ++ " units")
                   :: (feeding_rule (production d) ++ capacity_critical (capacity d))%list)
    by congruence.
  assert (Et : text = report_head now critical high ++ report_tail float_repr d po)
    by congruence.
  split; [reflexivity|]. split; [exact Ec|]. split.
  - rewrite Et, Ec. apply occurs_app_l, report_head_first_issue.
  - rewrite Et. apply occurs_skip.
    rewrite <- format_comma_neg by lia. rewrite <- Hsum.
    apply report_tail_variance.
Qed.

Lemma report_cites_same_shortfall_witness :
  exists (N : string) (rest : list string),
    N = "5,241"
    /\ [ "🚨 CRITICAL: Production shortfall of 5,241 units";
         "🔥 CRITICAL: 3 days of feeding issues from cutting";
         "⚠️ CRITICAL: Stitching capacity at 14%";
         "⚠️ CRITICAL: Lasting capacity at 0%" ]
       = ("🚨 CRITICAL: Production shortfall of " ++ N ++ " units") :: rest.
Proof.
  destruct (report_cites_same_shortfall (fun _ => "17.93") "03-Nov-2026 09:04"
              parse_supply_chain_data
              [ "🚨 CRITICAL: Production shortfall of 5,241 units";
                "🔥 CRITICAL: 3 days of feeding issues from cutting";
                "⚠️ CRITICAL: Stitching capacity at 14%";
                "⚠️ CRITICAL: Lasting capacity at 0%" ]
              [ "📋 HIGH: 2 orders with material unavailability" ]
              [ "📦 MEDIUM: 39.1% of POs pending" ]
              (returned_text
                 (fst (create_summary_report (fun _ => "17.93") "03-Nov-2026 09:04"
                         [ "🚨 CRITICAL: Production shortfall of 5,241 units";
                           "🔥 CRITICAL: 3 days of feeding issues from cutting";
                           "⚠️ CRITICAL: Stitching capacity at 14%";
                           "⚠️ CRITICAL: Lasting capacity at 0%" ]
                         [ "📋 HIGH: 2 orders with material unavailability" ]
                         [ "📦 MEDIUM: 39.1% of POs pending" ]
                         parse_supply_chain_data)))
              (conj eq_refl eq_refl) eq_refl eq_refl)
    as (N & rest & HN & Hc & _).
  exists N, rest. split; [exact HN | exact Hc].
Defined.

(** ** The charts and the classifier *)

Section Charts.

Lemma Forall2_map_r {A B : Type} (P : A -> B -> Prop) (f : A -> B) (l : list A) :
  (forall a, P a (f a)) -> Forall2 P l (map f l).
Proof.
  intros H. induction l as [|a l IH]; cbn [map]; constructor; auto.
Qed.

Lemma single_record_rules (row : CapacityRecord) :
  (capacity_critical [row] <> [] <-> Utilization row < 20)
  /\ (capacity_high [row] <> [] <-> 20 <= Utilization row < 40).
Proof.
  unfold capacity_critical, capacity_high. cbn [filter].
  destruct (Z.ltb_spec (Utilization row) 20), (Z.leb_spec 20 (Utilization row)),
    (Z.ltb_spec (Utilization row) 40); cbn [andb map];
    split; split; intros; try lia; try discriminate; try contradiction; congruence.
Qed.

Lemma no_red_no_negative (l : list Z) :
  ~ In "red" (map (fun v => if v <? 0 then "red" else "green") l) -> 0 <= Zsum l.
Proof.
  induction l as [|v l IH]; cbn [map In Zsum fold_right]; [lia|].
  intros H. fold (Zsum l).
  destruct (Z.ltb_spec v 0) as [Hv|Hv].
  - exfalso. apply H. now left.
  - assert (0 <= Zsum l) by (apply IH; intros Hin; apply H; now right). lia.
Qed.

End Charts.

(** X14. The capacity chart has one trace with one bar, one colour and
    one label per capacity record, in record order: the label is the
    utilization followed by "%", the colour is red below 30, orange
    from 30 to below 60 and green from 60. The bands are not the
    classifier's: a department with a critical capacity issue is always
    red and a green department never has a capacity issue, but a
    department with a high issue is red below 30 and orange from 30. *)
Theorem capacity_chart_colours (cap_df : list CapacityRecord) :
  exists bar colours labels,
    fig_data (create_capacity_chart cap_df) = [bar]
    /\ bar_x bar = map Department cap_df
    /\ bar_y bar = map Utilization cap_df
    /\ bar_marker_color bar = ColorPerBar colours
    /\ bar_text bar = Some labels
    /\ Forall2 (fun row label => label = str_of_Z (Utilization row) ++ "%") cap_df labels
    /\ Forall2 (fun row c =>
                  ((c = "red" /\ Utilization row < 30)
                   \/ (c = "orange" /\ 30 <= Utilization row < 60)
                   \/ (c = "green" /\ 60 <= Utilization row))
                  /\ (capacity_critical [row] <> [] -> c = "red")
                  /\ (capacity_high [row] <> [] -> c = "red" \/ c = "orange")
                  /\ (c = "green" ->
                      capacity_critical [row] = [] /\ capacity_high [row] = []))
               cap_df colours.
Proof.
  do 3 eexists. unfold create_capacity_chart, add_trace, update_layout, new_figure.
  cbn [fig_data app bar_x bar_y bar_marker_color bar_text].
  split; [reflexivity|]. split; [reflexivity|]. split; [reflexivity|].
  split; [reflexivity|]. split; [reflexivity|].
  rewrite !map_map. split.
  - apply Forall2_map_r. reflexivity.
  - apply Forall2_map_r. intros row.
    destruct (single_record_rules row) as [Hc Hh].
    destruct (Z.ltb_spec (Utilization row) 30) as [H30|H30];
      [|destruct (Z.ltb_spec (Utilization row) 60) as [H60|H60]].
    + split; [left; split; [reflexivity | assumption]|].
      split; [reflexivity|]. split; [now left|]. discriminate.
    + split; [right; left; split; [reflexivity | lia]|].
      split; [intros H; apply Hc in H; lia|]. split; [now right|]. discriminate.
    + split; [right; right; split; [reflexivity | assumption]|].
      split; [intros H; apply Hc in H; lia|].
      split; [intros H; apply Hh in H; lia|].
      intros _. split.
      * destruct (capacity_critical [row]) eqn:E; [reflexivity|].
        assert (Utilization row < 20) by (apply Hc; discriminate). lia.
      * destruct (capacity_high [row]) eqn:E; [reflexivity|].
        assert (20 <= Utilization row < 40) by (apply Hh; discriminate). lia.
Qed.

(** X15. The production chart has the traces "Planned" and "Actual",
    each with one bar per production record in record order; the actual
    bars are red where the stored variance is negative and green
    elsewhere. When no bar is red and the exact variance sum fits the
    int64 column, the classifier's shortfall rule emits nothing. *)
Theorem production_chart_colours (prod_df : list ProductionRecord) :
  exists planned actual colours,
    fig_data (create_production_chart prod_df) = [planned; actual]
    /\ bar_name planned = "Planned" /\ bar_name actual = "Actual"
    /\ bar_x planned = map Date prod_df /\ bar_y planned = map Planned_Qty prod_df
    /\ bar_x actual = map Date prod_df /\ bar_y actual = map Actual_Qty prod_df
    /\ bar_marker_color actual = ColorPerBar colours
    /\ Forall2 (fun r c => (c = "red" /\ Variance r < 0)
                           \/ (c = "green" /\ 0 <= Variance r))
               prod_df colours
    /\ (~ In "red" colours -> Zsum (map Variance prod_df) < 2 ^ 63 ->
        shortfall_rule prod_df = []).
Proof.
  do 3 eexists. unfold create_production_chart, add_trace, update_layout, new_figure.
  cbn [fig_data app bar_x bar_y bar_name bar_marker_color].
  repeat (split; [reflexivity|]). split.
  - rewrite map_map. apply Forall2_map_r. intros r.
    destruct (Z.ltb_spec (Variance r) 0); [left | right]; split; auto.
  - intros Hred Hfit. apply no_red_no_negative in Hred.
    unfold shortfall_rule. rewrite series_sum_wrap, wrap64_small by lia.
    destruct (Z.ltb_spec (Zsum (map Variance prod_df)) (-3000)); [lia | reflexivity].
Qed.

(** ** The alert block and the MRP table of the dashboard *)

Section Dashboard.

Lemma alert_loop (class : string) (issues shown : list string) :
  fold_left (fun shown issue => append shown (alert_div class issue)) issues shown
  = (shown ++ map (alert_div class) issues)%list.
Proof.
  revert shown. induction issues as [|issue issues IH]; intros shown; cbn [fold_left map].
  - now rewrite app_nil_r.
  - rewrite IH. unfold append. now rewrite <- app_assoc.
Qed.

Lemma alert_block (class : string) (issues shown : list string) :
  (if truthy issues
   then fold_left (fun shown issue => append shown (alert_div class issue)) issues shown
   else shown)
  = (shown ++ map (alert_div class) issues)%list.
Proof.
  destruct issues as [|issue issues]; cbn [truthy].
  - now rewrite app_nil_r.
  - apply alert_loop.
Qed.

Lemma success_box_is_no_alert (class issue : string) :
  In class ["critical-alert"; "high-alert"; "medium-alert"] ->
  alert_div class issue <> success_box.
Proof.
  intros [<-|[<-|[<-|[]]]]; intros E; discriminate E.
Qed.

Lemma status_style_red (x : string) :
  String.eqb (status_style x) "background-color: #ffcccc" = String.eqb x "Critical".
Proof.
  unfold status_style.
  destruct (String.eqb x "Critical"); [reflexivity|].
  destruct (String.eqb x "Pending"); reflexivity.
Qed.

End Dashboard.

(** X16. The alert block of the dashboard shows one box per issue, all
    critical ones first, then the high ones, then the medium ones, each
    in list order, with the issue text placed unescaped between the
    [div] tags of its severity class. It shows the box "All Systems
    Operating Normally" exactly when all three lists are empty, and
    then nothing else. *)
Theorem alert_section_shape (critical_issues high_issues medium_issues : list string) :
  alert_section critical_issues high_issues medium_issues
  = (map (fun issue => ("<div class=" ++ dq ++ "critical-alert" ++ dq ++ ">"
                         ++ issue ++ "</div>")%string) critical_issues
       ++ map (fun issue => ("<div class=" ++ dq ++ "high-alert" ++ dq ++ ">"
                              ++ issue ++ "</div>")%string) high_issues
       ++ map (fun issue => ("<div class=" ++ dq ++ "medium-alert" ++ dq ++ ">"
                              ++ issue ++ "</div>")%string) medium_issues
       ++ (match critical_issues, high_issues, medium_issues with
           | [], [], [] => [success_box]
           | _, _, _ => []
           end))%list
  /\ (In success_box (alert_section critical_issues high_issues medium_issues)
      <-> critical_issues = [] /\ high_issues = [] /\ medium_issues = []).
Proof.
  assert (E : alert_section critical_issues high_issues medium_issues
              = (map (alert_div "critical-alert") critical_issues
                   ++ map (alert_div "high-alert") high_issues
                   ++ map (alert_div "medium-alert") medium_issues
                   ++ (match critical_issues, high_issues, medium_issues with
                       | [], [], [] => [success_box]
                       | _, _, _ => []
                       end))%list).
  { unfold alert_section. rewrite !alert_block. cbn [app].
    destruct critical_issues, high_issues, medium_issues;
      cbn [truthy existsb orb negb]; unfold append;
      rewrite <- ?app_assoc, ?app_nil_r; reflexivity. }
  split; [exact E|].
  rewrite E. split.
  - intros H.
    repeat (apply in_app_or in H as [H|H];
            [apply in_map_iff in H as (issue & H & _);
             exfalso; revert H; apply success_box_is_no_alert; cbn [In]; auto|]).
    destruct critical_issues, high_issues, medium_issues;
      try contradiction; auto.
  - intros (-> & -> & ->). now left.
Qed.

(** X17. The MRP table of the dashboard gives the status cell a red
    background exactly on the rows with status "Critical" and a yellow
    one exactly on those with status "Pending". The number of red rows
    is the number the classifier's MRP issue cites; with no red row
    there is no MRP issue. *)
Theorem mrp_highlight_matches_alert (d : Snapshot) (critical high medium : list string) :
  fst (analyze_critical_issues d) = inr (critical, high, medium) ->
  let reds := len (filter (fun css => String.eqb css "background-color: #ffcccc")
                          (mrp_status_styles (mrp d))) in
  Forall2 (fun o css =>
             (css = "background-color: #ffcccc" <-> Status o = "Critical")
             /\ (css = "background-color: #fff3cd" <-> Status o = "Pending"))
          (mrp d) (mrp_status_styles (mrp d))
  /\ ((reds = 0 /\ forall s, In s high -> is_mrp s = false)
      \/ (0 < reds
          /\ In ("📋 HIGH: " ++ str_of_Z reds ++ " orders with material unavailability")
                high)).
Proof.
  intros E reds.
  assert (Hreds : reds = critical_count (mrp d)).
  { unfold reds, mrp_status_styles, critical_count, len.
    rewrite filter_map_comm, length_map. do 2 f_equal.
    apply filter_ext. intros o. apply status_style_red. }
  rewrite Hreds. clear Hreds reds. split.
  - apply Forall2_map_r. intros o. unfold status_style.
    destruct (String.eqb_spec (Status o) "Critical") as [Hc|Hc].
    + rewrite Hc. split; split; intros; try reflexivity; discriminate.
    + destruct (String.eqb_spec (Status o) "Pending") as [Hp|Hp].
      * split; split; intros; try discriminate; try contradiction; auto.
      * split; split; intros; try discriminate; contradiction.
  - rewrite analyze_critical_issues_eq in E. cbn [fst] in E.
    destruct (pending_ratio d) as [e|r]; [discriminate|].
    assert (Eh : high = (capacity_high (capacity d) ++ mrp_rule (mrp d))%list)
      by congruence.
    rewrite Eh. unfold mrp_rule.
    pose proof (critical_count_nonneg (mrp d)) as Hn.
    destruct (Z.ltb_spec 0 (critical_count (mrp d))) as [Hpos|Hzero].
    + right. split; [assumption|]. apply in_or_app. right. now left.
    + left. split; [lia|]. intros s Hs. rewrite app_nil_r in Hs.
      now apply not_mrp_capacity in Hs.
Qed.

Lemma mrp_highlight_matches_alert_witness :
  (len (filter (fun css => String.eqb css "background-color: #ffcccc")
               (mrp_status_styles (mrp parse_supply_chain_data))) = 0
   /\ forall s, In s [ "📋 HIGH: 2 orders with material unavailability" ] -> is_mrp s = false)
  \/ (0 < len (filter (fun css => String.eqb css "background-color: #ffcccc")
                      (mrp_status_styles (mrp parse_supply_chain_data)))
      /\ In ("📋 HIGH: "
               ++ str_of_Z (len (filter (fun css => String.eqb css "background-color: #ffcccc")
                                        (mrp_status_styles (mrp parse_supply_chain_data))))
               ++ " orders with material unavailability")
            [ "📋 HIGH: 2 orders with material unavailability" ]).
Proof.
  exact (proj2 (mrp_highlight_matches_alert parse_supply_chain_data
                  [ "🚨 CRITICAL: Production shortfall of 5,241 units";
                    "🔥 CRITICAL: 3 days of feeding issues from cutting";
                    "⚠️ CRITICAL: Stitching capacity at 14%";
                    "⚠️ CRITICAL: Lasting capacity at 0%" ]
                  [ "📋 HIGH: 2 orders with material unavailability" ]
                  [ "📦 MEDIUM: 39.1% of POs pending" ]
                  eq_refl)).
Defined.

(** ** The medium rule and the scale of the counts *)

(** X18. The pending ratio, and with it the medium list, depends only
    on the fraction pending / issued, not on the size of the two
    counts: two snapshots with non-negative pending counts, positive
    issued counts and the same fraction get the same float, hence
    either the same medium list or the same exception, although the
    quotient is rounded to binary64. *)
Theorem medium_depends_on_fraction (d1 d2 : Snapshot) :
  let pending1 := Count (PO_Pending (procurement d1)) in
  let issued1 := Count (PO_Issued (procurement d1)) in
  let pending2 := Count (PO_Pending (procurement d2)) in
  let issued2 := Count (PO_Issued (procurement d2)) in
  0 <= pending1 -> 0 < issued1 -> 0 <= pending2 -> 0 < issued2 ->
  pending1 * issued2 = pending2 * issued1 ->
  pending_ratio d1 = pending_ratio d2
  /\ match fst (analyze_critical_issues d1), fst (analyze_critical_issues d2) with
     | inr (_, _, medium1), inr (_, _, medium2) => medium1 = medium2
     | inl e1, inl e2 => e1 = e2
     | _, _ => False
     end.
Proof.
  intros pending1 issued1 pending2 issued2 Hp1 Hi1 Hp2 Hi2 E.
  subst pending1 issued1 pending2 issued2.
  assert (R : pending_ratio d1 = pending_ratio d2).
  { unfold pending_ratio.
    destruct (Z.eq_dec (Count (PO_Pending (procurement d2))) 0) as [Z2|N2].
    - assert (Z1 : Count (PO_Pending (procurement d1)) = 0) by nia.
      rewrite Z1, Z2. unfold long_true_divide.
      destruct (Z.eqb_spec (Count (PO_Issued (procurement d1))) 0); [lia|].
      destruct (Z.eqb_spec (Count (PO_Issued (procurement d2))) 0); [lia|].
      cbn [Z.eqb].
      destruct (Z.ltb_spec (Count (PO_Issued (procurement d1))) 0); [lia|].
      destruct (Z.ltb_spec (Count (PO_Issued (procurement d2))) 0); [lia|].
      reflexivity.
    - apply long_true_divide_cross; lia. }
  split; [exact R|].
  rewrite !analyze_critical_issues_eq. cbn [fst]. rewrite R.
  destruct (pending_ratio d2) as [e|r]; reflexivity.
Qed.

Lemma medium_depends_on_fraction_witness :
  pending_ratio parse_supply_chain_data
  = pending_ratio (with_procurement_counts 9200 0 3600 parse_supply_chain_data).
Proof.
  pose proof (medium_depends_on_fraction parse_supply_chain_data
                (with_procurement_counts 9200 0 3600 parse_supply_chain_data)) as H.
  cbv zeta in H.
  assert (H1 : 0 <= Count (PO_Pending (procurement parse_supply_chain_data)))
    by (simpl; lia).
  assert (H2 : 0 <= Count (PO_Pending
                              (procurement
                                 (with_procurement_counts 9200 0 3600
                                    parse_supply_chain_data))))
    by (simpl; lia).
  specialize (H H1 eq_refl H2 eq_refl eq_refl).
  destruct H as [H _]. exact H.
Defined.
